(** * Deadline & Notification Core of the Course Management backend

    A shallow embedding of the activity-tracker model
    ([ActivityTracker]: progress, attendance, deadline, overdue, submit,
    [findOverdue]), of the submit route of
    [routes/facilitatorActivityRoutes.js] and of the notification service
    ([services/notificationService.js]: queues, processors, notification
    log), followed by the properties established for them.

    Conventions of the embedding:
    - a JavaScript [Date] is its time value, milliseconds since the epoch,
      [None] standing for the NaN of an invalid date;
    - integral JavaScript numbers are [Z], percentages are binary64 floats;
    - code that reads the clock, the database, Redis or the queues runs in
      the monad [M] over an explicit [World]; an exception is an outcome
      [Throw], and the effects made before it stay in the world;
    - the host (time zone, clock readings, random tokens, SMTP transport,
      JSON codec, the precision of the dates of the database) is the
      interface [Host]. *)

From Stdlib Require Import ZArith Floats Lia.
From stdpp Require Import gmap strings list pretty sorting.

Open Scope Z_scope.

(** ** ECMAScript time arithmetic (ECMA-262, "Date objects") *)

Module JSDate.

Definition msPerDay : Z := 86400000.

Definition Day (t : Z) : Z := t / msPerDay.

Definition TimeWithinDay (t : Z) : Z := t mod msPerDay.

Definition DaysInYear (y : Z) : Z :=
  if negb (y mod 4 =? 0) then 365
  else if negb (y mod 100 =? 0) then 366
  else if negb (y mod 400 =? 0) then 365
  else 366.

Definition DayFromYear (y : Z) : Z :=
  365 * (y - 1970) + (y - 1969) / 4 - (y - 1901) / 100 + (y - 1601) / 400.

Definition TimeFromYear (y : Z) : Z := msPerDay * DayFromYear y.

(** The largest year [y] with [TimeFromYear y <= t], computed on 400-year
    eras counted from 1 March of year 0. *)
Definition YearFromTime (t : Z) : Z :=
  let z := Day t + 719468 in
  let era := z / 146097 in
  let doe := z mod 146097 in
  let yoe := (doe - doe / 1460 + doe / 36524 - doe / 146096) / 365 in
  let doy := doe - (365 * yoe + yoe / 4 - yoe / 100) in
  let mp := (5 * doy + 2) / 153 in
  if mp <? 10 then yoe + era * 400 else yoe + era * 400 + 1.

Definition InLeapYear (t : Z) : Z :=
  if DaysInYear (YearFromTime t) =? 366 then 1 else 0.

Definition DayWithinYear (t : Z) : Z := Day t - DayFromYear (YearFromTime t).

Definition MonthFromTime (t : Z) : Z :=
  let d := DayWithinYear t in
  let l := InLeapYear t in
  if d <? 31 then 0
  else if d <? 59 + l then 1
  else if d <? 90 + l then 2
  else if d <? 120 + l then 3
  else if d <? 151 + l then 4
  else if d <? 181 + l then 5
  else if d <? 212 + l then 6
  else if d <? 243 + l then 7
  else if d <? 273 + l then 8
  else if d <? 304 + l then 9
  else if d <? 334 + l then 10
  else 11.

Definition DateFromTime (t : Z) : Z :=
  let d := DayWithinYear t in
  let l := InLeapYear t in
  match MonthFromTime t with
  | 0 => d + 1
  | 1 => d - 30
  | 2 => d - 58 - l
  | 3 => d - 89 - l
  | 4 => d - 119 - l
  | 5 => d - 150 - l
  | 6 => d - 180 - l
  | 7 => d - 211 - l
  | 8 => d - 242 - l
  | 9 => d - 272 - l
  | 10 => d - 303 - l
  | _ => d - 333 - l
  end.

Definition WeekDay (t : Z) : Z := (Day t + 4) mod 7.

(** Day number, within a year of leap flag [l], of the first day of month
    [m] (0 = January). *)
Definition monthStart (m l : Z) : Z :=
  match m with
  | 0 => 0
  | 1 => 31
  | 2 => 59 + l
  | 3 => 90 + l
  | 4 => 120 + l
  | 5 => 151 + l
  | 6 => 181 + l
  | 7 => 212 + l
  | 8 => 243 + l
  | 9 => 273 + l
  | 10 => 304 + l
  | _ => 334 + l
  end.

(** [MakeDay year month date]: the day number of the first day of the month
    [month] of [year] (months beyond 0..11 carry into the year), plus
    [date - 1]. *)
Definition MakeDay (year month date : Z) : Z :=
  let ym := year + month / 12 in
  let mn := month mod 12 in
  let l := if DaysInYear ym =? 366 then 1 else 0 in
  DayFromYear ym + monthStart mn l + date - 1.

Definition MakeDate (day time : Z) : Z := day * msPerDay + time.

Definition maxTime : Z := 8640000000000000.

(** [TimeClip]: a time value beyond 8.64e15 ms from the epoch is NaN. *)
Definition TimeClip (t : Z) : option Z :=
  if Z.abs t >? maxTime then None else Some t.

(** A number in decimal, zero-padded on the left to [width] digits. *)
Definition padded (width : nat) (n : Z) : string :=
  let digits := pretty n in
  String.concat "" (replicate (width - String.length digits) "0") +:+ digits.

(** [Date.prototype.toISOString] of a valid time value: the UTC date and
    time, the year on four digits, or signed on six outside 0..9999. *)
Definition toISOString (t : Z) : string :=
  let y := YearFromTime t in
  let ms := TimeWithinDay t in
  (if (0 <=? y) && (y <=? 9999) then padded 4 y
   else (if y <? 0 then "-" else "+") +:+ padded 6 (Z.abs y)) +:+
  "-" +:+ padded 2 (MonthFromTime t + 1) +:+
  "-" +:+ padded 2 (DateFromTime t) +:+
  "T" +:+ padded 2 (ms / 3600000) +:+
  ":" +:+ padded 2 (ms / 60000 mod 60) +:+
  ":" +:+ padded 2 (ms / 1000 mod 60) +:+
  "." +:+ padded 3 (ms mod 1000) +:+ "Z".

End JSDate.

(** ** Data model *)

(** The ENUM('Done', 'Pending', 'Not Started') of the six task columns. *)
Inductive TaskStatus : Type := Done | Pending | NotStarted.

Definition TaskStatus_eqb (a b : TaskStatus) : bool :=
  match a, b with
  | Done, Done | Pending, Pending | NotStarted, NotStarted => true
  | _, _ => false
  end.

(** A row of [activity_trackers]; [submittedAt] is nullable, [attendance]
    is a nullable JSON array of booleans. *)
Record ActivityTracker : Type := {
  id : Z;
  allocationId : Z;
  facilitatorId : Z;
  weekNumber : Z;
  attendance : option (list bool);
  formativeOneGrading : TaskStatus;
  formativeTwoGrading : TaskStatus;
  summativeGrading : TaskStatus;
  courseModeration : TaskStatus;
  intranetSync : TaskStatus;
  gradeBookStatus : TaskStatus;
  notes : option string;
  submittedAt : option Z;
  createdAt : Z;
  updatedAt : Z
}.

Definition set_submittedAt (v : option Z) (a : ActivityTracker) : ActivityTracker :=
  {| id := id a; allocationId := allocationId a; facilitatorId := facilitatorId a;
     weekNumber := weekNumber a; attendance := attendance a;
     formativeOneGrading := formativeOneGrading a;
     formativeTwoGrading := formativeTwoGrading a;
     summativeGrading := summativeGrading a;
     courseModeration := courseModeration a;
     intranetSync := intranetSync a;
     gradeBookStatus := gradeBookStatus a;
     notes := notes a; submittedAt := v;
     createdAt := createdAt a; updatedAt := updatedAt a |}.

Definition set_updatedAt (v : Z) (a : ActivityTracker) : ActivityTracker :=
  {| id := id a; allocationId := allocationId a; facilitatorId := facilitatorId a;
     weekNumber := weekNumber a; attendance := attendance a;
     formativeOneGrading := formativeOneGrading a;
     formativeTwoGrading := formativeTwoGrading a;
     summativeGrading := summativeGrading a;
     courseModeration := courseModeration a;
     intranetSync := intranetSync a;
     gradeBookStatus := gradeBookStatus a;
     notes := notes a; submittedAt := submittedAt a;
     createdAt := createdAt a; updatedAt := v |}.


Definition set_attendance (v : option (list bool)) (a : ActivityTracker) :
    ActivityTracker :=
  {| id := id a; allocationId := allocationId a; facilitatorId := facilitatorId a;
     weekNumber := weekNumber a; attendance := v;
     formativeOneGrading := formativeOneGrading a;
     formativeTwoGrading := formativeTwoGrading a;
     summativeGrading := summativeGrading a;
     courseModeration := courseModeration a;
     intranetSync := intranetSync a;
     gradeBookStatus := gradeBookStatus a;
     notes := notes a; submittedAt := submittedAt a;
     createdAt := createdAt a; updatedAt := updatedAt a |}.

(** The result object of [getOverallProgress]. *)
Record Progress : Type := {
  completed : nat;
  pending : nat;
  notStarted : nat;
  total : nat;
  completionPercentage : float
}.

(** A count (an array length) as a JavaScript number. *)
Definition js_of_nat (n : nat) : float :=
  PrimFloat.of_uint63 (Uint63.of_Z (Z.of_nat n)).

(** *** ActivityTracker: instance methods without effects *)

Definition getOverallProgress (this : ActivityTracker) : Progress :=
  let tasks := [ formativeOneGrading this;
                 formativeTwoGrading this;
                 summativeGrading this;
                 courseModeration this;
                 intranetSync this;
                 gradeBookStatus this ] in
  let completed := length (List.filter (fun task => TaskStatus_eqb task Done) tasks) in
  let pending := length (List.filter (fun task => TaskStatus_eqb task Pending) tasks) in
  let notStarted := length (List.filter (fun task => TaskStatus_eqb task NotStarted) tasks) in
  {| completed := completed;
     pending := pending;
     notStarted := notStarted;
     total := length tasks;
     completionPercentage :=
       PrimFloat.mul (PrimFloat.div (js_of_nat completed) (js_of_nat (length tasks)))
                     100%float |}.

Definition getAttendanceRate (this : ActivityTracker) : float :=
  match attendance this with
  | None => 0%float
  | Some att =>
      if Nat.eqb (length att) 0 then 0%float
      else
        let presentDays := length (List.filter (fun day => Bool.eqb day true) att) in
        PrimFloat.mul (PrimFloat.div (js_of_nat presentDays) (js_of_nat (length att)))
                      100%float
  end.

Definition getTotalAttendanceDays (this : ActivityTracker) : nat :=
  match attendance this with
  | None => 0%nat
  | Some att => length (List.filter (fun day => Bool.eqb day true) att)
  end.

Definition isFullyCompleted (this : ActivityTracker) : bool :=
  let progress := getOverallProgress this in
  Nat.eqb (completed progress) (total progress).

Definition hasPendingTasks (this : ActivityTracker) : bool :=
  let progress := getOverallProgress this in
  Nat.ltb 0 (pending progress).

(** *** Other tables, as far as the core reads them *)

Inductive Role : Type := manager | facilitator | student.

Definition Role_eqb (a b : Role) : bool :=
  match a, b with
  | manager, manager | facilitator, facilitator | student, student => true
  | _, _ => false
  end.

Definition Role_name (r : Role) : string :=
  match r with
  | manager => "manager"
  | facilitator => "facilitator"
  | student => "student"
  end.

Record User : Type := {
  user_id : Z;
  email : string;
  firstName : string;
  lastName : string;
  role : Role;
  isActive : bool
}.

Record Facilitator : Type := { facilitator_id : Z; facilitator_userId : Z }.

Record Manager : Type := { manager_id : Z; manager_userId : Z }.

Record Module : Type := { module_id : Z; code : string; name : string }.

Record CourseOffering : Type := { offering_id : Z; moduleId : Z }.

Record Database : Type := {
  activity_trackers : list ActivityTracker;
  users : list User;
  facilitators : list Facilitator;
  managers : list Manager;
  modules : list Module;
  course_offerings : list CourseOffering
}.

Definition set_activity_trackers (v : list ActivityTracker) (d : Database) : Database :=
  {| activity_trackers := v; users := users d; facilitators := facilitators d;
     managers := managers d; modules := modules d;
     course_offerings := course_offerings d |}.

(** *** JavaScript values and objects used as payloads *)

Inductive JsVal : Type :=
| JsUndefined
| JsNull
| JsNum (n : Z)
| JsStr (s : string).

(** A plain object: its own properties by name. *)
Abbreviation JsObject := (gmap string JsVal).

(** Property access [o.k]: [undefined] when the property is missing. *)
Definition prop (o : JsObject) (k : string) : JsVal :=
  default JsUndefined (o !! k).

(** [${v}] inside a template literal. *)
Definition template (v : JsVal) : string :=
  match v with
  | JsUndefined => "undefined"
  | JsNull => "null"
  | JsNum n => pretty n
  | JsStr s => s
  end.

(** An optional string property of an object literal. *)
Definition optStr (o : option string) : JsVal :=
  match o with
  | Some s => JsStr s
  | None => JsUndefined
  end.

(** *** Queue jobs (Bull) *)

Inductive Backoff : Type :=
| exponential (delay : Z)
| fixed (delay : Z).

Record JobOptions : Type := {
  delay : Z;
  attempts : Z;
  backoff : option Backoff;
  removeOnComplete : Z;
  removeOnFail : Z
}.

Record JobResult : Type := { success : bool; messageId : option string }.

Inductive JobState : Type :=
| Waiting
| Delayed (ms : Z)
| Completed (returnvalue : JobResult)
| Failed (failedReason : string).

Record Job (D : Type) : Type := {
  jobName : string;
  jobData : D;
  jobOpts : JobOptions;
  attemptsMade : Z;
  jobState : JobState
}.

Arguments jobName {D} _.
Arguments jobData {D} _.
Arguments jobOpts {D} _.
Arguments attemptsMade {D} _.
Arguments jobState {D} _.

(** The payload of a send-email job. *)
Record EmailData : Type := {
  to : string;
  subject : string;
  text : string;
  html : option string;
  type : option string
}.

(** The payload of a manager-alert job. *)
Record AlertJob : Type := { alertType : string; alertData : JsObject }.

(** The options object of [queueEmail]; a missing property is [None]. *)
Record EmailOptions : Type := { opt_delay : option Z; opt_attempts : option Z }.

Record MailOptions : Type := {
  mail_from : string;
  mail_to : string;
  mail_subject : string;
  mail_text : string;
  mail_html : string
}.

(** *** Redis *)

Inductive RedisValue : Type :=
| RString (value : string) (ttl : Z)
| RList (items : list string).

(** *** The world a request handler or a queue worker runs in *)

Record World : Type := {
  clockReads : nat;
  randomDraws : nat;
  mailsSent : nat;
  db : Database;
  emailQueue : list (Job EmailData);
  alertQueue : list (Job AlertJob);
  redis : gmap string RedisValue
}.

Definition set_clockReads (v : nat) (w : World) : World :=
  {| clockReads := v; randomDraws := randomDraws w; mailsSent := mailsSent w;
     db := db w; emailQueue := emailQueue w; alertQueue := alertQueue w;
     redis := redis w |}.

Definition set_randomDraws (v : nat) (w : World) : World :=
  {| clockReads := clockReads w; randomDraws := v; mailsSent := mailsSent w;
     db := db w; emailQueue := emailQueue w; alertQueue := alertQueue w;
     redis := redis w |}.

Definition set_mailsSent (v : nat) (w : World) : World :=
  {| clockReads := clockReads w; randomDraws := randomDraws w; mailsSent := v;
     db := db w; emailQueue := emailQueue w; alertQueue := alertQueue w;
     redis := redis w |}.

Definition set_db (v : Database) (w : World) : World :=
  {| clockReads := clockReads w; randomDraws := randomDraws w;
     mailsSent := mailsSent w; db := v; emailQueue := emailQueue w;
     alertQueue := alertQueue w; redis := redis w |}.

Definition set_emailQueue (v : list (Job EmailData)) (w : World) : World :=
  {| clockReads := clockReads w; randomDraws := randomDraws w;
     mailsSent := mailsSent w; db := db w; emailQueue := v;
     alertQueue := alertQueue w; redis := redis w |}.

Definition set_alertQueue (v : list (Job AlertJob)) (w : World) : World :=
  {| clockReads := clockReads w; randomDraws := randomDraws w;
     mailsSent := mailsSent w; db := db w; emailQueue := emailQueue w;
     alertQueue := v; redis := redis w |}.

Definition set_redis (v : gmap string RedisValue) (w : World) : World :=
  {| clockReads := clockReads w; randomDraws := randomDraws w;
     mailsSent := mailsSent w; db := db w; emailQueue := emailQueue w;
     alertQueue := alertQueue w; redis := v |}.

(** *** The host: what the process gets from outside

    [LocalTZA t isUTC] is the offset of local time from UTC in
    milliseconds, as ECMA-262 has it: at the UTC time value [t] when
    [isUTC] is true, at the local time value [t] when it is false (a local
    time that a change of offset skips or repeats is read with the offset
    before the change); [wallClock k] is the [k]-th reading of the system
    clock; [mathRandom k] the [k]-th
    [Math.random().toString(36).substr(2, 9)]; [SMTP_FROM] is the
    environment variable of that name; [sendMail k m] the outcome of the
    [k]-th call of the transport, a message id or the message of the error
    it throws; [sqlDate t] is the time value the database holds for a
    [Date] of time value [t] that a query carries (the MySQL dialect of
    Sequelize writes a DATE column without precision as
    'YYYY-MM-DD HH:mm:ss', the milliseconds dropped). *)
Class Host : Type := {
  LocalTZA : Z -> bool -> Z;
  wallClock : nat -> Z;
  mathRandom : nat -> string;
  SMTP_FROM : option string;
  sendMail : nat -> MailOptions -> string + string;
  JSON_stringify : JsObject -> string;
  JSON_parse : string -> option JsObject;
  sqlDate : Z -> Z
}.

(** *** The monad of effectful code *)

Inductive Outcome (A : Type) : Type :=
| Return (a : A)
| Throw (message : string).

Arguments Return {A} _.
Arguments Throw {A} _.

Definition M (A : Type) : Type := World -> Outcome A * World.

#[global] Instance M_ret : MRet M := fun A a w => (Return a, w).

#[global] Instance M_bind : MBind M := fun A B f m w =>
  match m w with
  | (Return a, w') => f a w'
  | (Throw e, w') => (Throw e, w')
  end.

Definition throw {A : Type} (message : string) : M A :=
  fun w => (Throw message, w).

(** [try { body } catch (error) { handler }]. *)
Definition try_catch {A : Type} (body : M A) (handler : string -> M A) : M A :=
  fun w =>
    match body w with
    | (Return a, w') => (Return a, w')
    | (Throw e, w') => handler e w'
    end.

Definition get {A : Type} (f : World -> A) : M A := fun w => (Return (f w), w).

Definition modify (f : World -> World) : M unit := fun w => (Return tt, f w).

(** [for (const x of xs) { body }]. *)
Fixpoint for_of {A : Type} (xs : list A) (body : A -> M unit) : M unit :=
  match xs with
  | [] => mret tt
  | x :: rest => body x ≫= fun _ => for_of rest body
  end.

(** The result and the final world of a run. *)
Definition result {A : Type} (r : Outcome A * World) : Outcome A := fst r.

Definition world {A : Type} (r : Outcome A * World) : World := snd r.

(** ** Date objects *)

Section DateObjects.
Context `{Host}.

Import JSDate.

Definition LocalTime (t : Z) : Z := t + LocalTZA t true.

Definition UTC (t : Z) : Z := t - LocalTZA t false.

(** A Date object is its time value; [None] is NaN. *)
Definition Date : Type := option Z.

(** JavaScript numbers that are integers or NaN. *)
Definition num_add (a b : option Z) : option Z :=
  match a, b with
  | Some x, Some y => Some (x + y)
  | _, _ => None
  end.

Definition num_sub (a b : option Z) : option Z :=
  match a, b with
  | Some x, Some y => Some (x - y)
  | _, _ => None
  end.

(** [Date.prototype.getDate]: day of the month, in local time. *)
Definition getDate (d : Date) : option Z :=
  match d with
  | Some t => Some (DateFromTime (LocalTime t))
  | None => None
  end.

(** [Date.prototype.getDay]: day of the week, 0 = Sunday, in local time. *)
Definition getDay (d : Date) : option Z :=
  match d with
  | Some t => Some (WeekDay (LocalTime t))
  | None => None
  end.

(** [Date.prototype.setDate]: the new time value of the date. *)
Definition setDate (d : Date) (date : option Z) : Date :=
  match d, date with
  | Some t0, Some dt =>
      let t := LocalTime t0 in
      let newDate :=
        MakeDate (MakeDay (YearFromTime t) (MonthFromTime t) dt) (TimeWithinDay t) in
      TimeClip (UTC newDate)
  | _, _ => None
  end.

(** [a > b] on dates: false as soon as one of them is invalid. *)
Definition date_gt (a b : Date) : bool :=
  match a, b with
  | Some x, Some y => y <? x
  | _, _ => false
  end.

(** [new Date()] and [Date.now()]: one reading of the clock. *)
Definition newDate : M Z :=
  fun w => (Return (wallClock (clockReads w)), set_clockReads (S (clockReads w)) w).

End DateObjects.

(** ** ActivityTracker: methods that read the clock or the table *)

Section ActivityTrackerModel.
Context `{Host}.

Definition isOverdue (this : ActivityTracker) : M bool :=
  match submittedAt this with
  | Some _ => mret false
  | None =>
      now ← newDate;
      let weekStart := Some now in
      let weekStart :=
        setDate weekStart
          (num_add (num_sub (getDate weekStart) (getDay weekStart))
                   (Some ((weekNumber this - 1) * 7))) in
      let deadline := weekStart in
      let deadline := setDate deadline (num_add (getDate deadline) (Some 9)) in
      now ← newDate;
      mret (date_gt (Some now) deadline)
  end.

Definition getDeadline (this : ActivityTracker) : M Date :=
  now ← newDate;
  let weekStart := Some now in
  let weekStart :=
    setDate weekStart
      (num_add (num_sub (getDate weekStart) (getDay weekStart))
               (Some ((weekNumber this - 1) * 7))) in
  let deadline := weekStart in
  let deadline := setDate deadline (num_add (getDate deadline) (Some 9)) in
  mret deadline.

(** The row the database holds for an instance: the dates that a save
    writes, [submittedAt] and [updatedAt], at the precision of the
    database. *)
Definition storedRow (this : ActivityTracker) : ActivityTracker :=
  set_updatedAt (sqlDate (updatedAt this))
    (set_submittedAt (option_map sqlDate (submittedAt this)) this).

(** [instance.save()]: the row of the instance's primary key takes the
    instance's values, with [updatedAt] refreshed; the instance keeps its
    own dates. *)
Definition save (this : ActivityTracker) : M ActivityTracker :=
  now ← newDate;
  let this := set_updatedAt now this in
  _ ← modify (fun w =>
         set_db (set_activity_trackers
                   (map (fun r => if id r =? id this then storedRow this else r)
                        (activity_trackers (db w)))
                   (db w)) w);
  mret this.

Definition submit (this : ActivityTracker) : M ActivityTracker :=
  now ← newDate;
  let this := set_submittedAt (Some now) this in
  this ← save this;
  mret this.

(** The error of a query whose key is NaN: the key reaches the database as
    the word NaN, which the database reads as the name of a column. *)
Definition DatabaseError : string :=
  "SequelizeDatabaseError: Unknown column 'NaN' in 'where clause'".

(** [ActivityTracker.findByPk]; a NaN key makes the query fail. *)
Definition findByPk (pk : option Z) : M (option ActivityTracker) :=
  fun w =>
    match pk with
    | Some k => (Return (List.find (fun r => id r =? k) (activity_trackers (db w))), w)
    | None => (Throw DatabaseError, w)
    end.

(** [ActivityTracker.findOverdue]: the rows with [submittedAt IS NULL] and
    [createdAt < twoWeeksAgo], the date [twoWeeksAgo] as the query carries
    it.  The two includes are [belongsTo] associations, joined without
    dropping rows. *)
Definition findOverdue : M (list ActivityTracker) :=
  now ← newDate;
  let twoWeeksAgo := Some now in
  let twoWeeksAgo := setDate twoWeeksAgo (num_sub (getDate twoWeeksAgo) (Some 16)) in
  get (fun w =>
    List.filter
      (fun r =>
         match submittedAt r with
         | None => date_gt (option_map sqlDate twoWeeksAgo) (Some (createdAt r))
         | Some _ => false
         end)
      (activity_trackers (db w))).

End ActivityTrackerModel.

(** ** Redis commands used by the notification log *)

(** The elements of a list from index [start] to index [stop], both
    inclusive, negative indices counting from the tail (LRANGE, LTRIM). *)
Definition redis_range (l : list string) (start stop : Z) : list string :=
  let llen := Z.of_nat (length l) in
  let start := if start <? 0 then llen + start else start in
  let stop := if stop <? 0 then llen + stop else stop in
  let start := if start <? 0 then 0 else start in
  if (stop <? start) || (llen <=? start) then []
  else
    let stop := if llen <=? stop then llen - 1 else stop in
    take (Z.to_nat (stop - start + 1)) (drop (Z.to_nat start) l).

Definition WRONGTYPE : string :=
  "WRONGTYPE Operation against a key holding the wrong kind of value".

Definition setEx (key : string) (seconds : Z) (value : string) : M unit :=
  modify (fun w => set_redis (<[key := RString value seconds]> (redis w)) w).

Definition lPush (key : string) (element : string) : M unit :=
  fun w =>
    match redis w !! key with
    | None => (Return tt, set_redis (<[key := RList [element]]> (redis w)) w)
    | Some (RList l) =>
        (Return tt, set_redis (<[key := RList (element :: l)]> (redis w)) w)
    | Some (RString _ _) => (Throw WRONGTYPE, w)
    end.

Definition lTrim (key : string) (start stop : Z) : M unit :=
  fun w =>
    match redis w !! key with
    | None => (Return tt, w)
    | Some (RList l) =>
        match redis_range l start stop with
        | [] => (Return tt, set_redis (delete key (redis w)) w)
        | l' => (Return tt, set_redis (<[key := RList l']> (redis w)) w)
        end
    | Some (RString _ _) => (Throw WRONGTYPE, w)
    end.

Definition lRange (key : string) (start stop : Z) : M (list string) :=
  fun w =>
    match redis w !! key with
    | None => (Return [], w)
    | Some (RList l) => (Return (redis_range l start stop), w)
    | Some (RString _ _) => (Throw WRONGTYPE, w)
    end.

(** ** Bull queues *)

(** [a || b] on a possibly missing number: 0 and undefined are falsy. *)
Definition num_or (a : option Z) (b : Z) : Z :=
  match a with
  | Some 0 | None => b
  | Some v => v
  end.

(** [a || b] on a possibly missing string: the empty string is falsy. *)
Definition str_or (a : option string) (b : string) : string :=
  match a with
  | Some EmptyString | None => b
  | Some v => v
  end.

(** The job that [queue.add(name, data, opts)] creates. *)
Definition newJob {D : Type} (name : string) (data : D) (opts : JobOptions) : Job D :=
  {| jobName := name; jobData := data; jobOpts := opts; attemptsMade := 0;
     jobState := if 0 <? delay opts then Delayed (delay opts) else Waiting |}.

Definition set_job {D : Type} (made : Z) (st : JobState) (job : Job D) : Job D :=
  {| jobName := jobName job; jobData := jobData job; jobOpts := jobOpts job;
     attemptsMade := made; jobState := st |}.

(** The delay Bull waits before the retry that follows the failed attempt
    number [made]. *)
Definition backoffDelay (b : option Backoff) (made : Z) : Z :=
  match b with
  | None => 0
  | Some (fixed d) => d
  | Some (exponential d) => (2 ^ made - 1) * d
  end.

(** Bull, when the processor of a job throws: the attempt is counted, and
    the job is retried while attempts remain, else it is failed for good. *)
Definition moveToFailed {D : Type} (err : string) (job : Job D) : Job D :=
  let made := attemptsMade job + 1 in
  if made <? attempts (jobOpts job) then
    let d := backoffDelay (backoff (jobOpts job)) made in
    set_job made (if d =? 0 then Waiting else Delayed d) job
  else set_job made (Failed err) job.

Definition moveToCompleted {D : Type} (v : JobResult) (job : Job D) : Job D :=
  set_job (attemptsMade job) (Completed v) job.

(** One pick of a job by a worker: a job that waits (its delay elapsed) is
    handed to the processor once; a completed or failed job is never picked
    again.  The waiting itself and the pruning of old completed and failed
    jobs ([removeOnComplete], [removeOnFail]) are left out. *)
Definition processJob {D : Type} (processor : Job D -> M JobResult)
    (job : Job D) : M (Job D) :=
  fun w =>
    match jobState job with
    | Waiting | Delayed _ =>
        match processor job w with
        | (Return v, w') => (Return (moveToCompleted v job), w')
        | (Throw e, w') => (Return (moveToFailed e job), w')
        end
    | Completed _ | Failed _ => (Return job, w)
    end.

(** ** The notification service *)

Section NotificationService.
Context `{Host}.

Definition random : M string :=
  fun w => (Return (mathRandom (randomDraws w)), set_randomDraws (S (randomDraws w)) w).

Definition transporter_sendMail (mailOptions : MailOptions) : M string :=
  fun w =>
    let w' := set_mailsSent (S (mailsSent w)) w in
    match sendMail (mailsSent w) mailOptions with
    | inl messageId => (Return messageId, w')
    | inr message => (Throw message, w')
    end.

Definition logNotification (notificationData : JsObject) : M unit :=
  try_catch
    (now ← newDate;
     rnd ← random;
     let logKey := "notification_log:" +:+ pretty now +:+ ":" +:+ rnd in
     now ← newDate;
     let logData := <["timestamp" := JsStr (JSDate.toISOString now)]> notificationData in
     _ ← setEx logKey 604800 (JSON_stringify logData);
     _ ← lPush "recent_notifications" (JSON_stringify logData);
     lTrim "recent_notifications" 0 99)
    (fun error => mret tt).

Definition getRecentNotifications (limit : option Z) : M (list JsObject) :=
  let limit := default 20 limit in
  try_catch
    (notifications ← lRange "recent_notifications" 0 (limit - 1);
     match mapM JSON_parse notifications with
     | Some parsed => mret parsed
     | None => throw "SyntaxError"
     end)
    (fun error => mret []).

Definition noOptions : EmailOptions := {| opt_delay := None; opt_attempts := None |}.

Definition queueEmail (emailData : EmailData) (options : EmailOptions) :
    M (Job EmailData) :=
  let jobOptions :=
    {| delay := num_or (opt_delay options) 0;
       attempts := num_or (opt_attempts options) 3;
       backoff := Some (exponential 2000);
       removeOnComplete := 10;
       removeOnFail := 5 |} in
  let job := newJob "send-email" emailData jobOptions in
  _ ← modify (fun w => set_emailQueue (emailQueue w ++ [job]) w);
  mret job.

Definition queueManagerAlert (type : string) (data : JsObject) (delay : Z) :
    M (Job AlertJob) :=
  let jobOptions :=
    {| delay := delay;
       attempts := 2;
       backoff := None;
       removeOnComplete := 5;
       removeOnFail := 3 |} in
  let job :=
    newJob "manager-alert" {| alertType := type; alertData := data |} jobOptions in
  _ ← modify (fun w => set_alertQueue (alertQueue w ++ [job]) w);
  mret job.

(** The processor that [setupEmailProcessor] registers for send-email. *)
Definition setupEmailProcessor (job : Job EmailData) : M JobResult :=
  let d := jobData job in
  try_catch
    (let mailOptions :=
       {| mail_from := str_or SMTP_FROM "noreply@coursemanagement.com";
          mail_to := to d;
          mail_subject := subject d;
          mail_text := text d;
          mail_html := str_or (html d) (text d) |} in
     messageId ← transporter_sendMail mailOptions;
     _ ← logNotification
           (list_to_map
              [ ("type", JsStr "email");
                ("recipient", JsStr (to d));
                ("subject", JsStr (subject d));
                ("status", JsStr "sent");
                ("messageId", JsStr messageId);
                ("emailType", optStr (type d)) ]);
     mret {| success := true; messageId := Some messageId |})
    (fun error =>
       _ ← logNotification
             (list_to_map
                [ ("type", JsStr "email");
                  ("recipient", JsStr (to d));
                  ("subject", JsStr (subject d));
                  ("status", JsStr "failed");
                  ("error", JsStr error);
                  ("emailType", optStr (type d)) ]);
       throw error).

Definition generateOverdueAlert (data : JsObject) : string :=
  "
    Alert: Overdue Activity Log Submissions
    
    There are " +:+ template (prop data "count") +:+
  " overdue activity log submissions from " +:+
  template (prop data "facilitators") +:+ " facilitator(s).
    
    Please follow up with the respective facilitators to ensure compliance with reporting requirements.
    
    You can view detailed information in the Course Management System dashboard.
    
    Best regards,
    Course Management System
  ".

Definition generateLateSubmissionAlert (data : JsObject) : string :=
  "
    Alert: Late Activity Log Submission
    
    An activity log has been submitted after the deadline:
    
    Facilitator: " +:+ template (prop data "facilitatorName") +:+ "
    Course: " +:+ template (prop data "courseName") +:+ "
    Week: " +:+ template (prop data "weekNumber") +:+ "
    Submitted: " +:+ template (prop data "submissionTime") +:+ "
    
    Please review the submission and take appropriate action if necessary.
    
    Best regards,
    Course Management System
  ".

Definition generateCriticalDeadlineAlert (data : JsObject) : string :=
  "
    Alert: Critical Deadline Approaching
    
    " +:+ template (prop data "count") +:+
  " activity log submissions are due within " +:+
  template (prop data "deadline") +:+ ".
    
    Please ensure facilitators are aware of upcoming deadlines.
    
    Best regards,
    Course Management System
  ".

(** [Manager.findAll] with the user included and [user.isActive] required:
    the managers joined to their user row, the active ones. *)
Definition Manager_findAll : M (list (Manager * User)) :=
  get (fun w =>
    omap (fun m =>
            match List.find (fun u => user_id u =? manager_userId m) (users (db w)) with
            | Some u => if isActive u then Some (m, u) else None
            | None => None
            end)
         (managers (db w))).

(** The subject and the text the [switch] of the alert processor selects;
    [None] is its [default: continue]. *)
Definition alertMessage (type : string) (data : JsObject) : option (string * string) :=
  if String.eqb type "overdue-submission" then
    Some ("Overdue Activity Log Submission Alert", generateOverdueAlert data)
  else if String.eqb type "late-submission" then
    Some ("Late Activity Log Submission Alert", generateLateSubmissionAlert data)
  else if String.eqb type "critical-deadline" then
    Some ("Critical Deadline Alert", generateCriticalDeadlineAlert data)
  else None.

(** The processor that [setupAlertProcessor] registers for manager-alert. *)
Definition setupAlertProcessor (job : Job AlertJob) : M JobResult :=
  let type := alertType (jobData job) in
  let data := alertData (jobData job) in
  try_catch
    (managers ← Manager_findAll;
     _ ← for_of managers (fun manager =>
           match alertMessage type data with
           | None => mret tt
           | Some (subject, text) =>
               _ ← queueEmail
                     {| to := email (snd manager);
                        subject := subject;
                        text := text;
                        html := None;
                        type := Some "alert" |}
                     noOptions;
               mret tt
           end);
     _ ← logNotification
           (list_to_map
              [ ("type", JsStr "alert");
                ("recipient", JsStr "all-managers");
                ("subject", JsStr (type +:+ " alert"));
                ("status", JsStr "queued");
                ("alertType", JsStr type);
                ("data", JsStr (JSON_stringify data)) ]);
     mret {| success := true; messageId := None |})
    (fun error => throw error).

(** A worker of the email queue picks the job at position [i]. *)
Definition emailWorker (i : nat) : M unit :=
  fun w =>
    match emailQueue w !! i with
    | None => (Return tt, w)
    | Some job =>
        (job' ← processJob setupEmailProcessor job;
         modify (fun w' => set_emailQueue (<[i := job']> (emailQueue w')) w')) w
    end.

(** A worker of the alert queue picks the job at position [i]. *)
Definition alertWorker (i : nat) : M unit :=
  fun w =>
    match alertQueue w !! i with
    | None => (Return tt, w)
    | Some job =>
        (job' ← processJob setupAlertProcessor job;
         modify (fun w' => set_alertQueue (<[i := job']> (alertQueue w')) w')) w
    end.

End NotificationService.

(** ** The submit route: PATCH /api/facilitator-activities/:id/submit *)

(** The request as the handler sees it, after [authenticate]:
    [params_id] is [parseInt(req.params.id)] ([None] for NaN), [user_role]
    is [req.user.role], [facilitatorProfile] the id of
    [req.facilitatorProfile] when the user has one. *)
Record Request : Type := {
  params_id : option Z;
  user_role : Role;
  facilitatorProfile : option Z
}.

(** The response: HTTP status and the JSON body; [res_data] is the activity
    row of a successful submission, without the rows joined to it. *)
Record Response : Type := {
  res_code : Z;
  res_status : string;
  res_message : string;
  res_data : option ActivityTracker
}.

Section SubmitRoute.
Context `{Host}.

Definition TypeError : string := "TypeError: Cannot read properties of null".

(** [authorize(roles)]: [None] lets the request through to the handler. *)
Definition authorize (roles : list Role) (req : Request) : option Response :=
  if existsb (Role_eqb (user_role req)) roles then None
  else
    Some {| res_code := 403;
            res_status := "error";
            res_message :=
              "Access denied. Required role(s): " +:+
              String.concat ", " (map Role_name roles) +:+
              ". Your role: " +:+ Role_name (user_role req);
            res_data := None |}.

(** [Facilitator.findByPk(id, { include: user })] followed by
    [facilitator.user.getFullName()]. *)
Definition facilitator_fullName (facilitatorId : Z) : M string :=
  fun w =>
    match List.find (fun f => facilitator_id f =? facilitatorId) (facilitators (db w)) with
    | None => (Throw TypeError, w)
    | Some f =>
        match List.find (fun u => user_id u =? facilitator_userId f) (users (db w)) with
        | None => (Throw TypeError, w)
        | Some u => (Return (firstName u +:+ " " +:+ lastName u), w)
        end
    end.

(** [CourseOffering.findByPk(id, { include: module })] followed by
    [allocation.module.getFullName()]. *)
Definition allocation_fullName (allocationId : Z) : M string :=
  fun w =>
    match List.find (fun o => offering_id o =? allocationId) (course_offerings (db w)) with
    | None => (Throw TypeError, w)
    | Some o =>
        match List.find (fun m => module_id m =? moduleId o) (modules (db w)) with
        | None => (Throw TypeError, w)
        | Some m => (Return (code m +:+ " - " +:+ name m), w)
        end
    end.

(** The access check of the handler: true when a facilitator asks for a log
    of another facilitator.  Reading [req.facilitatorProfile.id] throws when
    the profile is missing. *)
Definition notOwner (req : Request) (activity : ActivityTracker) : M bool :=
  if Role_eqb (user_role req) facilitator then
    match facilitatorProfile req with
    | None => throw TypeError
    | Some profileId => mret (negb (facilitatorId activity =? profileId))
    end
  else mret false.

Definition submitHandler (req : Request) : M Response :=
  let activityId := params_id req in
  activity ← findByPk activityId;
  match activity with
  | None =>
      mret {| res_code := 404; res_status := "error";
              res_message := "Activity log not found"; res_data := None |}
  | Some activity =>
      denied ← notOwner req activity;
      if denied : bool then
        mret {| res_code := 403; res_status := "error";
                res_message := "You can only submit your own activity logs";
                res_data := None |}
      else
        match submittedAt activity with
        | Some _ =>
            mret {| res_code := 400; res_status := "error";
                    res_message := "Activity log has already been submitted";
                    res_data := None |}
        | None =>
            activity ← submit activity;
            late ← isOverdue activity;
            _ ← (if late : bool then
                   facilitatorName ← facilitator_fullName (facilitatorId activity);
                   courseName ← allocation_fullName (allocationId activity);
                   _ ← queueManagerAlert "late-submission"
                         (list_to_map
                            [ ("facilitatorName", JsStr facilitatorName);
                              ("courseName", JsStr courseName);
                              ("weekNumber", JsNum (weekNumber activity));
                              ("submissionTime",
                               match submittedAt activity with
                               | Some t => JsStr (JSDate.toISOString t)
                               | None => JsNull
                               end) ])
                         0;
                   mret tt
                 else mret tt);
            updatedActivity ← findByPk activityId;
            mret {| res_code := 200; res_status := "success";
                    res_message := "Activity log submitted successfully";
                    res_data := updatedActivity |}
        end
  end.

(** The route: [authorize(['facilitator', 'manager'])], then the handler. *)
Definition submitRoute (req : Request) : M Response :=
  match authorize [facilitator; manager] req with
  | Some denied => mret denied
  | None => submitHandler req
  end.

End SubmitRoute.

(** ** Words of the specification, for the statements below *)

Section SpecificationWords.
Context `{Host}.

Import JSDate.

(** A date moved by [k] days of the local calendar: the instant that has,
    [k] days later, the local time of day of [d]; the result is invalid
    once it leaves the range of time values. *)
Definition addDays (d : Date) (k : Z) : Date :=
  match d with
  | Some t => TimeClip (UTC (LocalTime t + k * msPerDay))
  | None => None
  end.

(** How many days the local date of [now] is after the Sunday that opens
    its calendar week. *)
Definition daysIntoWeek (now : Z) : Z := WeekDay (LocalTime now).

(** The start of week [weekNumber]: the Sunday that opens the calendar week
    of [now], at the local time of day of [now], moved [weekNumber - 1]
    weeks forward. *)
Definition weekStart_forward (now weekNumber : Z) : Date :=
  addDays (Some now) ((weekNumber - 1) * 7 - daysIntoWeek now).



(** The same with the shift forward. *)
Definition deadline_shifted_forward (now weekNumber : Z) : Date :=
  addDays (weekStart_forward now weekNumber) 9.

(** The offset of local time from UTC never changes on this host. *)
Definition fixedOffset : Prop :=
  forall t t' b b', LocalTZA t b = LocalTZA t' b'.


End SpecificationWords.

#[global] Instance JsVal_eq_dec : EqDecision JsVal.
Proof. solve_decision. Defined.

(** An object as JSON text carries it: a property whose value is
    [undefined] is left out by [JSON.stringify]. *)
Definition jsonValue (o : JsObject) : JsObject :=
  filter (fun kv => kv.2 <> JsUndefined) o.

(** The six task fields of a record. *)
Definition taskFields (a : ActivityTracker) : list TaskStatus :=
  [ formativeOneGrading a; formativeTwoGrading a; summativeGrading a;
    courseModeration a; intranetSync a; gradeBookStatus a ].

#[global] Instance TaskStatus_eq_dec : EqDecision TaskStatus.
Proof. solve_decision. Defined.

(** How many fields of [l] have the status [s]. *)
Definition countStatus (s : TaskStatus) (l : list TaskStatus) : nat :=
  length (filter (fun x => x = s) l).

(** How many entries of an attendance array are [true]. *)
Definition presentDays (att : list bool) : nat :=
  length (filter (fun day => day = true) att).

(** The value of the JavaScript expression [(a / b) * 100]. *)
Definition percentage (a b : nat) : float :=
  PrimFloat.mul (PrimFloat.div (js_of_nat a) (js_of_nat b)) 100%float.

(** ** A concrete host and a concrete world, for the examples *)

Module Demo.

Definition newline : string := String (Ascii.ascii_of_nat 10) EmptyString.

(** A line-oriented stand-in for JSON: a property is its name on one line
    and its tagged value on the next. *)
Definition encode_val (v : JsVal) : string :=
  match v with
  | JsUndefined => "U"
  | JsNull => "L"
  | JsNum n => "N" +:+ pretty n
  | JsStr s => "S" +:+ s
  end.

Definition stringify (o : JsObject) : string :=
  String.concat ""
    (map (fun kv => fst kv +:+ newline +:+ encode_val (snd kv) +:+ newline)
         (map_to_list (jsonValue o))).

Fixpoint lines (s cur : string) : list string :=
  match s with
  | EmptyString => match cur with EmptyString => [] | _ => [cur] end
  | String c rest =>
      if Ascii.eqb c (Ascii.ascii_of_nat 10) then cur :: lines rest EmptyString
      else lines rest (cur +:+ String c EmptyString)
  end.

Definition decode_val (s : string) : option JsVal :=
  if String.eqb s "U" then Some JsUndefined
  else if String.eqb s "L" then Some JsNull
  else if String.eqb (String.substring 0 1 s) "S" then
    Some (JsStr (String.substring 1 (String.length s - 1) s))
  else None.

Fixpoint properties (l : list string) : option (list (string * JsVal)) :=
  match l with
  | [] => Some []
  | k :: v :: rest =>
      match decode_val v, properties rest with
      | Some x, Some ps => Some ((k, x) :: ps)
      | _, _ => None
      end
  | _ => None
  end.

Definition parse (s : string) : option JsObject :=
  match properties (lines s EmptyString) with
  | Some ps => Some (list_to_map ps)
  | None => None
  end.

(** A transport that refuses every connection. *)
Definition refusing (k : nat) (m : MailOptions) : string + string :=
  inr "connect ECONNREFUSED 127.0.0.1:587".

(** A transport whose calls time out, each with a message of its own. *)
Definition failing (k : nat) (m : MailOptions) : string + string :=
  inr ("connect ETIMEDOUT (call " +:+ pretty k +:+ ")").

(** A transport that delivers every message. *)
Definition delivering (k : nat) (m : MailOptions) : string + string :=
  inl ("<" +:+ pretty k +:+ "@coursemanagement.com>").

(** Dates as MySQL holds them in a DATETIME column: to the second. *)
Definition toTheSecond (t : Z) : Z := 1000 * (t / 1000).

(** UTC+2 all year (Central Africa Time); the clock starts on Wednesday
    2025-07-30 at 10:00:00 UTC and advances by one millisecond per
    reading. *)
Definition host (smtp : nat -> MailOptions -> string + string) : Host :=
  {| LocalTZA := fun _ _ => 7200000;
     wallClock := fun k => 1753869600000 + Z.of_nat k;
     mathRandom := fun k => "k" +:+ pretty k;
     SMTP_FROM := None;
     sendMail := smtp;
     JSON_stringify := stringify;
     JSON_parse := parse;
     sqlDate := toTheSecond |}.

(** Central European time with the rules of 2025: UTC+2 from 2025-03-30
    01:00 UTC to 2025-10-26 01:00 UTC, UTC+1 outside; a local time of the
    skipped or of the repeated hour is read with the offset before the
    change. *)
Definition berlinTZA (t : Z) (isUTC : bool) : Z :=
  if isUTC then
    if (1743296400000 <=? t) && (t <? 1761440400000) then 7200000 else 3600000
  else
    if (1743303600000 <=? t) && (t <? 1761447600000) then 7200000 else 3600000.

(** The same host in Berlin, its clock starting at [start]. *)
Definition berlin (start : Z) : Host :=
  {| LocalTZA := berlinTZA;
     wallClock := fun k => start + Z.of_nat k;
     mathRandom := fun k => "k" +:+ pretty k;
     SMTP_FROM := None;
     sendMail := refusing;
     JSON_stringify := stringify;
     JSON_parse := parse;
     sqlDate := toTheSecond |}.

Definition activity (i alloc fac week : Z) (submitted : option Z) (created : Z) :
    ActivityTracker :=
  {| id := i; allocationId := alloc; facilitatorId := fac; weekNumber := week;
     attendance := Some [false; false; false; false; false];
     formativeOneGrading := NotStarted; formativeTwoGrading := NotStarted;
     summativeGrading := NotStarted; courseModeration := NotStarted;
     intranetSync := NotStarted; gradeBookStatus := NotStarted;
     notes := None; submittedAt := submitted;
     createdAt := created; updatedAt := created |}.

Definition user (i : Z) (mail first last : string) (r : Role) (active : bool) : User :=
  {| user_id := i; email := mail; firstName := first; lastName := last;
     role := r; isActive := active |}.

(** Three active managers and a deactivated one, two facilitators; log 1 is
    submitted, log 2 (week 2) and log 3 (week 0, created in June) are not. *)
Definition database : Database :=
  {| activity_trackers :=
       [ activity 1 10 1 1 (Some 1753000000000) 1752000000000;
         activity 2 10 1 2 None 1753800000000;
         activity 3 11 2 0 None 1750000000000 ];
     users :=
       [ user 1 "alice@alu.edu" "Alice" "Uwase" manager true;
         user 2 "bob@alu.edu" "Bob" "Mugisha" manager true;
         user 3 "carol@alu.edu" "Carol" "Keza" manager false;
         user 4 "dan@alu.edu" "Dan" "Nkusi" manager true;
         user 5 "eve@alu.edu" "Eve" "Imena" facilitator true;
         user 6 "fred@alu.edu" "Fred" "Gasana" facilitator true ];
     facilitators :=
       [ {| facilitator_id := 1; facilitator_userId := 5 |};
         {| facilitator_id := 2; facilitator_userId := 6 |} ];
     managers :=
       [ {| manager_id := 1; manager_userId := 1 |};
         {| manager_id := 2; manager_userId := 2 |};
         {| manager_id := 3; manager_userId := 3 |};
         {| manager_id := 4; manager_userId := 4 |} ];
     modules := [ {| module_id := 1; code := "CS101"; name := "Programming" |} ];
     course_offerings :=
       [ {| offering_id := 10; moduleId := 1 |};
         {| offering_id := 11; moduleId := 1 |} ] |}.

Definition world0 : World :=
  {| clockReads := 0; randomDraws := 0; mailsSent := 0; db := database;
     emailQueue := []; alertQueue := []; redis := ∅ |}.

(** The entries of the recent-notifications list of a world. *)
Definition recentEntries (w : World) : list string :=
  match redis w !! "recent_notifications" with
  | Some (RList l) => l
  | _ => []
  end.

End Demo.


Section NotificationWords.
Context `{Host}.

(** The recent-notifications list of a world, newest first; [None] when the
    key holds a value that is not a list. *)
Definition recentList (w : World) : option (list string) :=
  match redis w !! "recent_notifications" with
  | None => Some []
  | Some (RList l) => Some l
  | Some (RString _ _) => None
  end.

(** The entry [logNotification] stores for [o] when the clock reads [t]. *)
Definition stamped (o : JsObject) (t : Z) : JsObject :=
  <["timestamp" := JsStr (JSDate.toISOString t)]> o.

(** The entries stored for [os], logged one after the other from a world
    whose clock has been read [k] times: each call reads the clock twice,
    the second reading being the timestamp. *)
Fixpoint stampedAll (os : list JsObject) (k : nat) : list JsObject :=
  match os with
  | [] => []
  | o :: rest => stamped o (wallClock (S k)) :: stampedAll rest (S (S k))
  end.

(** [logNotification] called on each object of [os] in turn. *)
Definition logAll (os : list JsObject) : M unit := for_of os logNotification.

(** The world after [n] picks, by a worker, of the email job at position
    [i]. *)
Fixpoint picks (n i : nat) (w : World) : World :=
  match n with
  | O => w
  | S k => picks k i (world (emailWorker i w))
  end.

End NotificationWords.

(** A job a worker can still pick. *)
Definition pickable {D : Type} (job : Job D) : Prop :=
  match jobState job with
  | Waiting | Delayed _ => True
  | Completed _ | Failed _ => False
  end.

(** The alert types the alert processor knows. *)
Definition recognizedTypes : list string :=
  ["overdue-submission"; "late-submission"; "critical-deadline"].

(** The user row of a manager, when the manager is active. *)
Definition activeUser (d : Database) (m : Manager) : option User :=
  match List.find (fun u => user_id u =? manager_userId m) (users d) with
  | Some u => if isActive u then Some u else None
  | None => None
  end.

(** The managers whose user is active. *)
Definition activeManagers (d : Database) : list Manager :=
  filter (fun m => is_Some (activeUser d m)) (managers d).

(** The address an alert for the manager [m] goes to. *)
Definition managerEmail (d : Database) (m : Manager) : string :=
  match activeUser d m with
  | Some u => email u
  | None => ""
  end.

(** The job options [queueEmail] uses when it is given no options. *)
Definition defaultEmailJobOptions : JobOptions :=
  {| delay := 0; attempts := 3; backoff := Some (exponential 2000);
     removeOnComplete := 10; removeOnFail := 5 |}.

(** The requester passes the access check of the handler: a manager, or
    the facilitator the log belongs to. *)
Definition mayAccess (req : Request) (a : ActivityTracker) : Prop :=
  user_role req = manager \/
  (user_role req = facilitator /\ facilitatorProfile req = Some (facilitatorId a)).

Definition alreadySubmitted : Response :=
  {| res_code := 400; res_status := "error";
     res_message := "Activity log has already been submitted"; res_data := None |}.

(** The answer of the access check of the submit handler. *)
Definition notOwnLog : Response :=
  {| res_code := 403; res_status := "error";
     res_message := "You can only submit your own activity logs"; res_data := None |}.

(** The answer of the role check of the submit route to a student. *)
Definition roleDenied : Response :=
  {| res_code := 403; res_status := "error";
     res_message :=
       "Access denied. Required role(s): facilitator, manager. Your role: student";
     res_data := None |}.

(** The email job the alert processor queues for a manager. *)
Definition alertEmail (subj body : string) (mu : Manager * User) : Job EmailData :=
  newJob "send-email"
    {| to := email (snd mu); subject := subj; text := body;
       html := None; type := Some "alert" |}
    defaultEmailJobOptions.

(** The log entry of a failed attempt to send [d], before its timestamp. *)
Definition failedEntry (d : EmailData) (error : string) : JsObject :=
  list_to_map
    [ ("type", JsStr "email");
      ("recipient", JsStr (to d));
      ("subject", JsStr (subject d));
      ("status", JsStr "failed");
      ("error", JsStr error);
      ("emailType", optStr (type d)) ].




(** The options the email processor hands to the transport for [d]. *)
Definition mailOptionsOf `{Host} (d : EmailData) : MailOptions :=
  {| mail_from := str_or SMTP_FROM "noreply@coursemanagement.com";
     mail_to := to d;
     mail_subject := subject d;
     mail_text := text d;
     mail_html := str_or (html d) (text d) |}.

(** The message of the error that the [k]-th call of the transport throws
    when it is handed the email [d]. *)
Definition sendError `{Host} (k : nat) (d : EmailData) : string :=
  match sendMail k (mailOptionsOf d) with
  | inr message => message
  | inl _ => ""
  end.

(** The log entry of the failed attempt number [j] (from 0) to send [d],
    the attempts starting at call [k] of the transport and reading [c] of
    the clock: the attempt is call [k + j]; it reads the clock twice, its
    second reading being the timestamp. *)
Definition failedAttempt `{Host} (d : EmailData) (k c j : nat) : JsObject :=
  stamped (failedEntry d (sendError (k + j) d)) (wallClock (S (c + 2 * j))).

(** The log entries of [n] failed attempts in a row, the newest first. *)
Definition failedAttempts `{Host} (d : EmailData) (k c n : nat) : list JsObject :=
  reverse (map (failedAttempt d k c) (seq 0 n)).

(** ** ActivityTracker: task fields by name *)

Definition validTasks : list string :=
  [ "formativeOneGrading"; "formativeTwoGrading"; "summativeGrading";
    "courseModeration"; "intranetSync"; "gradeBookStatus" ].

Definition validStatuses : list string := [ "Done"; "Pending"; "Not Started" ].

(** [l.includes(s)]. *)
Definition includes (l : list string) (s : string) : bool :=
  existsb (String.eqb s) l.


(** The value of the ENUM that a string of [validStatuses] is. *)
Definition status_of_name (s : string) : TaskStatus :=
  if String.eqb s "Done" then Done
  else if String.eqb s "Pending" then Pending
  else NotStarted.

(** [this[taskName]] for a name of [validTasks]. *)
Definition task_get (this : ActivityTracker) (taskName : string) : TaskStatus :=
  if String.eqb taskName "formativeOneGrading" then formativeOneGrading this
  else if String.eqb taskName "formativeTwoGrading" then formativeTwoGrading this
  else if String.eqb taskName "summativeGrading" then summativeGrading this
  else if String.eqb taskName "courseModeration" then courseModeration this
  else if String.eqb taskName "intranetSync" then intranetSync this
  else gradeBookStatus this.

(** [this[taskName] = v] for a name of [validTasks]. *)
Definition task_set (taskName : string) (v : TaskStatus) (this : ActivityTracker) :
    ActivityTracker :=
  let named n := String.eqb taskName n in
  let last :=
    negb (named "formativeOneGrading" || named "formativeTwoGrading" || named "summativeGrading"
          || named "courseModeration" || named "intranetSync") in
  {| id := id this; allocationId := allocationId this;
     facilitatorId := facilitatorId this; weekNumber := weekNumber this;
     attendance := attendance this;
     formativeOneGrading :=
       if named "formativeOneGrading" then v else formativeOneGrading this;
     formativeTwoGrading :=
       if named "formativeTwoGrading" then v else formativeTwoGrading this;
     summativeGrading := if named "summativeGrading" then v else summativeGrading this;
     courseModeration := if named "courseModeration" then v else courseModeration this;
     intranetSync := if named "intranetSync" then v else intranetSync this;
     gradeBookStatus := if last then v else gradeBookStatus this;
     notes := notes this; submittedAt := submittedAt this;
     createdAt := createdAt this; updatedAt := updatedAt this |}.

Definition getTaskStatus (this : ActivityTracker) (taskName : string) :
    Outcome TaskStatus :=
  if negb (includes validTasks taskName) then
    Throw ("Invalid task name: " +:+ taskName)
  else Return (task_get this taskName).

(** The attendance validator of the model: [None] when the value passes,
    the message of the error otherwise.  The entries are booleans by type. *)
Definition isValidAttendance (value : option (list bool)) : option string :=
  match value with
  | None => None
  | Some v =>
      if (7 <? length v)%nat then Some "Attendance array cannot have more than 7 days"
      else None
  end.

(** The order of [weekNumber ASC]. *)
Definition weekOrder (a b : ActivityTracker) : Prop := weekNumber a <= weekNumber b.

(** The order of [weekNumber ASC, createdAt DESC]. *)
Definition weekThenNewestOrder (a b : ActivityTracker) : Prop :=
  weekNumber a < weekNumber b \/
  (weekNumber a = weekNumber b /\ createdAt b <= createdAt a).

#[global] Instance weekOrder_dec (a b : ActivityTracker) : Decision (weekOrder a b).
Proof. unfold weekOrder. apply _. Defined.

#[global] Instance weekThenNewestOrder_dec (a b : ActivityTracker) :
  Decision (weekThenNewestOrder a b).
Proof. unfold weekThenNewestOrder. apply _. Defined.

#[global] Instance weekOrder_total : Total weekOrder.
Proof. intros a b. unfold weekOrder. lia. Qed.

#[global] Instance weekOrder_trans : Transitive weekOrder.
Proof. intros a b c. unfold weekOrder. lia. Qed.

#[global] Instance weekThenNewestOrder_total : Total weekThenNewestOrder.
Proof. intros a b. unfold weekThenNewestOrder. lia. Qed.

#[global] Instance weekThenNewestOrder_trans : Transitive weekThenNewestOrder.
Proof. intros a b c. unfold weekThenNewestOrder. lia. Qed.

Section ActivityTrackerQueries.
Context `{Host}.

Definition updateTaskStatus (this : ActivityTracker) (taskName status : string) :
    M ActivityTracker :=
  if negb (includes validTasks taskName) then
    throw ("Invalid task name: " +:+ taskName)
  else if negb (includes validStatuses status) then
    throw ("Invalid status: " +:+ status)
  else
    let this := task_set taskName (status_of_name status) this in
    this ← save this;
    mret this.

(** [instance.destroy()]: the rows of the instance's primary key leave the
    table. *)
Definition destroy (this : ActivityTracker) : M unit :=
  modify (fun w =>
    set_db (set_activity_trackers
              (List.filter (fun r => negb (id r =? id this))
                           (activity_trackers (db w)))
              (db w)) w).






(** [ActivityTracker.findIncomplete]: the rows with a task that is not
    'Done'. *)
Definition findIncomplete : M (list ActivityTracker) :=
  get (fun w =>
    List.filter
      (fun r =>
         negb (TaskStatus_eqb (formativeOneGrading r) Done)
         || negb (TaskStatus_eqb (formativeTwoGrading r) Done)
         || negb (TaskStatus_eqb (summativeGrading r) Done)
         || negb (TaskStatus_eqb (courseModeration r) Done)
         || negb (TaskStatus_eqb (intranetSync r) Done)
         || negb (TaskStatus_eqb (gradeBookStatus r) Done))
      (activity_trackers (db w))).

End ActivityTrackerQueries.






(** One entry of [taskStats]. *)
Record TaskCounts : Type := { stat_done : Z; stat_pending : Z; stat_notStarted : Z }.

(** The result object of [getStatistics]; [stats_taskStats] has one entry
    per task field, in the order of the loop. *)
Record Statistics : Type := {
  stats_total : Z;
  stats_submitted : Z;
  stats_pending : Z;
  stats_overdue : Z;
  stats_submissionRate : float;
  stats_taskStats : list (string * TaskCounts)
}.

Section ActivityTrackerStatistics.
Context `{Host}.

(** [this.count({ where })]. *)
Definition count (cond : ActivityTracker -> bool) : M Z :=
  get (fun w => Z.of_nat (length (List.filter cond (activity_trackers (db w))))).

Definition getStatistics : M Statistics :=
  total ← count (fun _ => true);
  submitted ← count (fun r => match submittedAt r with Some _ => true | None => false end);
  overdue ← findOverdue;
  taskStats ←
    mapM (fun field =>
            done ← count (fun r => TaskStatus_eqb (task_get r field) Done);
            pending ← count (fun r => TaskStatus_eqb (task_get r field) Pending);
            notStarted ← count (fun r => TaskStatus_eqb (task_get r field) NotStarted);
            mret (field, {| stat_done := done; stat_pending := pending;
                            stat_notStarted := notStarted |}))
         validTasks;
  mret {| stats_total := total;
          stats_submitted := submitted;
          stats_pending := total - submitted;
          stats_overdue := Z.of_nat (length overdue);
          stats_submissionRate :=
            if 0 <? total then
              PrimFloat.mul
                (PrimFloat.div (PrimFloat.of_uint63 (Uint63.of_Z submitted))
                               (PrimFloat.of_uint63 (Uint63.of_Z total)))
                100%float
            else 0%float;
          stats_taskStats := taskStats |}.

End ActivityTrackerStatistics.

(** ** The manager dashboard: submission compliance *)

(** The three counters of the compliance loop. *)
Record Compliance : Type := {
  submittedOnTime : Z;
  submittedLate : Z;
  overdueLogs : Z
}.

Section ManagerDashboard.
Context `{Host}.

(** The body of [allActivities.forEach] on the counters. *)
Definition complianceStep (c : Compliance) (activity : ActivityTracker) : M Compliance :=
  match submittedAt activity with
  | Some _ =>
      late ← isOverdue activity;
      if late : bool then
        mret {| submittedOnTime := submittedOnTime c;
                submittedLate := submittedLate c + 1;
                overdueLogs := overdueLogs c |}
      else
        mret {| submittedOnTime := submittedOnTime c + 1;
                submittedLate := submittedLate c;
                overdueLogs := overdueLogs c |}
  | None =>
      late ← isOverdue activity;
      if late : bool then
        mret {| submittedOnTime := submittedOnTime c;
                submittedLate := submittedLate c;
                overdueLogs := overdueLogs c + 1 |}
      else mret c
  end.

(** The counting loop over [allActivities], from three zero counters. *)
Fixpoint complianceLoop (allActivities : list ActivityTracker) (c : Compliance) :
    M Compliance :=
  match allActivities with
  | [] => mret c
  | activity :: rest => complianceStep c activity ≫= complianceLoop rest
  end.

Definition submissionCompliance (allActivities : list ActivityTracker) : M Compliance :=
  complianceLoop allActivities
    {| submittedOnTime := 0; submittedLate := 0; overdueLogs := 0 |}.

End ManagerDashboard.

(** ** The delete route: DELETE /api/facilitator-activities/:id *)

Section DeleteRoute.
Context `{Host}.

Definition deleteHandler (req : Request) : M Response :=
  let activityId := params_id req in
  activity ← findByPk activityId;
  match activity with
  | None =>
      mret {| res_code := 404; res_status := "error";
              res_message := "Activity log not found"; res_data := None |}
  | Some activity =>
      denied ← notOwner req activity;
      if denied : bool then
        mret {| res_code := 403; res_status := "error";
                res_message := "You can only delete your own activity logs";
                res_data := None |}
      else
        if (match submittedAt activity with Some _ => true | None => false end)
           && Role_eqb (user_role req) facilitator
        then
          mret {| res_code := 400; res_status := "error";
                  res_message := "Cannot delete submitted activity log";
                  res_data := None |}
        else
          _ ← destroy activity;
          mret {| res_code := 200; res_status := "success";
                  res_message := "Activity log deleted successfully";
                  res_data := None |}
  end.

Definition deleteRoute (req : Request) : M Response :=
  match authorize [facilitator; manager] req with
  | Some denied => mret denied
  | None => deleteHandler req
  end.

End DeleteRoute.

(** How many records of [l] are submitted. *)
Definition submittedCount (l : list ActivityTracker) : Z :=
  Z.of_nat (length (filter (fun r => submittedAt r <> None) l)).




(** ** Words for the notification log and the email worker *)

Section NotificationEntries.
Context `{Host}.

(** The key [logNotification] stores an entry under, in a world [w]. *)
Definition logKeyOf (w : World) : string :=
  "notification_log:" +:+ pretty (wallClock (clockReads w)) +:+ ":" +:+
  mathRandom (randomDraws w).

(** The entry [logNotification] writes for [o] in a world [w]. *)
Definition entryOf (o : JsObject) (w : World) : string :=
  JSON_stringify (stamped o (wallClock (S (clockReads w)))).

(** The log entry of a delivered email [d], before its timestamp. *)
Definition sentEntry (d : EmailData) (messageId : string) : JsObject :=
  list_to_map
    [ ("type", JsStr "email");
      ("recipient", JsStr (to d));
      ("subject", JsStr (subject d));
      ("status", JsStr "sent");
      ("messageId", JsStr messageId);
      ("emailType", optStr (type d)) ].

(** The log entry of a processed alert, before its timestamp. *)
Definition queuedEntry (type : string) (data : JsObject) : JsObject :=
  list_to_map
    [ ("type", JsStr "alert");
      ("recipient", JsStr "all-managers");
      ("subject", JsStr (type +:+ " alert"));
      ("status", JsStr "queued");
      ("alertType", JsStr type);
      ("data", JsStr (JSON_stringify data)) ].

End NotificationEntries.

(** The offsets of local time from UTC on this host differ by [v]
    milliseconds at most. *)
Definition offsetsWithin `{Host} (v : Z) : Prop :=
  forall t t' b b', Z.abs (LocalTZA t b - LocalTZA t' b') <= v.

(** The log entry of the delivery of [d] at the attempt number [j] (from
    0), the attempts starting at reading [c] of the clock. *)
Definition sentAttempt `{Host} (d : EmailData) (messageId : string) (c j : nat) :
    JsObject :=
  stamped (sentEntry d messageId) (wallClock (S (c + 2 * j))).

(** A transport whose first two calls time out and whose later calls
    deliver. *)
Definition recovering (k : nat) (m : MailOptions) : string + string :=
  if (k <? 2)%nat then Demo.failing k m else Demo.delivering k m.

(** * Properties *)

(** ** Progress and attendance *)

Lemma filter_TaskStatus_eqb (s : TaskStatus) (l : list TaskStatus) :
  length (List.filter (fun task => TaskStatus_eqb task s) l) = countStatus s l.
Proof.
  unfold countStatus.
  induction l as [|x l IH]; [reflexivity|].
  rewrite filter_cons. simpl.
  destruct x, s; simpl; repeat case_decide; simpl; congruence.
Qed.

Lemma filter_true_presentDays (att : list bool) :
  length (List.filter (fun day => Bool.eqb day true) att) = presentDays att.
Proof.
  unfold presentDays.
  induction att as [|x l IH]; [reflexivity|].
  rewrite filter_cons. simpl.
  destruct x; simpl; repeat case_decide; simpl; congruence.
Qed.

Lemma countStatus_partition (l : list TaskStatus) :
  (countStatus Done l + countStatus Pending l + countStatus NotStarted l)%nat = length l.
Proof.
  unfold countStatus.
  induction l as [|x l IH]; [reflexivity|].
  rewrite !filter_cons.
  destruct x; repeat case_decide; try congruence; simpl; lia.
Qed.

Lemma all_NotStarted (a : ActivityTracker) :
  Forall (fun s => s = NotStarted) (taskFields a) ->
  taskFields a = replicate 6 NotStarted.
Proof.
  unfold taskFields. intros Hall.
  repeat (apply Forall_cons_1 in Hall as [-> Hall]). reflexivity.
Qed.

(** C8.  [getOverallProgress] counts the six task fields by status; the
    three counts add up to the total, 6; the completion percentage is
    done / 6 * 100; a record whose six fields are all 'Not Started' has
    completed = 0, pending = 0, notStarted = 6, completionPercentage = 0. *)
Theorem getOverallProgress_counts (a : ActivityTracker) :
  let p := getOverallProgress a in
  completed p = countStatus Done (taskFields a) /\
  pending p = countStatus Pending (taskFields a) /\
  notStarted p = countStatus NotStarted (taskFields a) /\
  total p = 6%nat /\
  (completed p + pending p + notStarted p)%nat = total p /\
  completionPercentage p = percentage (countStatus Done (taskFields a)) 6 /\
  (Forall (fun s => s = NotStarted) (taskFields a) ->
   completed p = 0%nat /\ pending p = 0%nat /\ notStarted p = 6%nat /\
   completionPercentage p = 0%float).
Proof.
  cbv zeta.
  assert (Hc : completed (getOverallProgress a) = countStatus Done (taskFields a))
    by apply filter_TaskStatus_eqb.
  assert (Hp : pending (getOverallProgress a) = countStatus Pending (taskFields a))
    by apply filter_TaskStatus_eqb.
  assert (Hn : notStarted (getOverallProgress a) = countStatus NotStarted (taskFields a))
    by apply filter_TaskStatus_eqb.
  assert (Hpc : completionPercentage (getOverallProgress a)
                = percentage (countStatus Done (taskFields a)) 6).
  { unfold percentage. rewrite <- Hc. reflexivity. }
  repeat split; try assumption; try reflexivity.
  - rewrite Hc, Hp, Hn. apply (countStatus_partition (taskFields a)).
  - rewrite Hc, (all_NotStarted a) by assumption. reflexivity.
  - rewrite Hp, (all_NotStarted a) by assumption. reflexivity.
  - rewrite Hn, (all_NotStarted a) by assumption. reflexivity.
  - rewrite Hpc, (all_NotStarted a) by assumption. reflexivity.
Qed.

(** The scenario of the specification: a record created for week 1, all
    tasks 'Not Started'. *)
Lemma getOverallProgress_counts_witness :
  getOverallProgress (Demo.activity 1 10 1 1 None 0)
  = {| completed := 0; pending := 0; notStarted := 6; total := 6;
       completionPercentage := 0%float |}.
Proof.
  pose proof (getOverallProgress_counts (Demo.activity 1 10 1 1 None 0)) as H.
  cbv zeta in H.
  destruct H as (_ & _ & _ & Ht & _ & _ & H).
  destruct H as (Hc & Hp & Hn & Hpc).
  { repeat constructor. }
  destruct (getOverallProgress (Demo.activity 1 10 1 1 None 0)); simpl in *.
  congruence.
Defined.

(** C9.  [getAttendanceRate] is 0 when the attendance array is absent or
    empty, and (number of true entries / length) * 100 otherwise; being a
    total function, it never throws. *)
Theorem getAttendanceRate_spec (a : ActivityTracker) :
  (attendance a = None \/ attendance a = Some [] -> getAttendanceRate a = 0%float) /\
  (forall att, attendance a = Some att -> att <> [] ->
     getAttendanceRate a = percentage (presentDays att) (length att)).
Proof.
  unfold getAttendanceRate. split.
  - intros [-> | ->]; reflexivity.
  - intros att -> Hne. destruct att as [|x att]; [congruence|].
    cbn [length Nat.eqb]. unfold percentage.
    rewrite filter_true_presentDays. reflexivity.
Qed.

(** A record without attendance array, one with an empty array, and one
    present on three days out of four. *)
Lemma getAttendanceRate_spec_witness :
  let a := Demo.activity 1 10 1 1 None 0 in
  getAttendanceRate (set_attendance None a) = 0%float /\
  getAttendanceRate (set_attendance (Some []) a) = 0%float /\
  getAttendanceRate (set_attendance (Some [true; false; true; true]) a) = 75%float.
Proof.
  cbv zeta. split; [|split].
  - apply (proj1 (getAttendanceRate_spec
                    (set_attendance None (Demo.activity 1 10 1 1 None 0)))).
    left. reflexivity.
  - apply (proj1 (getAttendanceRate_spec
                    (set_attendance (Some []) (Demo.activity 1 10 1 1 None 0)))).
    right. reflexivity.
  - rewrite (proj2 (getAttendanceRate_spec
                      (set_attendance (Some [true; false; true; true])
                                      (Demo.activity 1 10 1 1 None 0)))
               [true; false; true; true] eq_refl ltac:(discriminate)).
    reflexivity.
Defined.

(** All six tasks 'Done': 100 percent, fully completed, nothing pending. *)
Example getOverallProgress_all_done :
  let a :=
    {| id := 1; allocationId := 10; facilitatorId := 1; weekNumber := 1;
       attendance := Some [true; true; false];
       formativeOneGrading := Done; formativeTwoGrading := Done;
       summativeGrading := Done; courseModeration := Done;
       intranetSync := Done; gradeBookStatus := Done;
       notes := None; submittedAt := None; createdAt := 0; updatedAt := 0 |} in
  completionPercentage (getOverallProgress a) = 100%float /\
  isFullyCompleted a = true /\ hasPendingTasks a = false /\
  getTotalAttendanceDays a = 2%nat.
Proof. cbv zeta. repeat split. Qed.

(** ** Dates: moving a date by whole days *)

Section DateFacts.
Context `{Host}.

Import JSDate.

Lemma MonthFromTime_range (t : Z) : 0 <= MonthFromTime t <= 11.
Proof.
  unfold MonthFromTime.
  repeat match goal with |- context [if ?b then _ else _] => destruct b end; lia.
Qed.

Lemma DateFromTime_monthStart (t : Z) :
  DateFromTime t
  = DayWithinYear t - monthStart (MonthFromTime t) (InLeapYear t) + 1.
Proof.
  unfold DateFromTime.
  pose proof (MonthFromTime_range t) as Hm.
  assert (Hcases : exists m : nat, (m < 12)%nat /\ MonthFromTime t = Z.of_nat m).
  { exists (Z.to_nat (MonthFromTime t)). lia. }
  destruct Hcases as (m & Hlt & ->).
  do 12 (destruct m as [|m]; [simpl; lia|]). lia.
Qed.

Lemma MakeDay_monthStart (y m dt : Z) :
  0 <= m <= 11 ->
  MakeDay y m dt
  = DayFromYear y + monthStart m (if DaysInYear y =? 366 then 1 else 0) + dt - 1.
Proof.
  intros Hm. unfold MakeDay.
  rewrite (Z.div_small m 12), (Z.mod_small m 12), Z.add_0_r by lia.
  reflexivity.
Qed.

(** Setting the day of the month to the current one plus [k] moves the
    local time by [k] days and keeps the time of day. *)
Lemma MakeDay_DateFromTime (t k : Z) :
  MakeDay (YearFromTime t) (MonthFromTime t) (DateFromTime t + k) = Day t + k.
Proof.
  rewrite MakeDay_monthStart by apply MonthFromTime_range.
  rewrite DateFromTime_monthStart.
  unfold DayWithinYear, InLeapYear. lia.
Qed.

Lemma MakeDate_Day (t k : Z) :
  MakeDate (Day t + k) (TimeWithinDay t) = t + k * msPerDay.
Proof.
  unfold MakeDate, Day, TimeWithinDay.
  pose proof (Z.div_mod t msPerDay) as Hdm.
  assert (msPerDay <> 0) by (unfold msPerDay; lia).
  specialize (Hdm ltac:(assumption)). lia.
Qed.

Lemma setDate_shift (t k : Z) :
  setDate (Some t) (Some (DateFromTime (LocalTime t) + k)) = addDays (Some t) k.
Proof.
  unfold setDate, addDays. rewrite MakeDay_DateFromTime, MakeDate_Day. reflexivity.
Qed.



Lemma TimeClip_Some (t u : Z) : TimeClip t = Some u -> u = t /\ - maxTime <= t <= maxTime.
Proof.
  unfold TimeClip. destruct (Z.gtb_spec (Z.abs t) maxTime); [discriminate|].
  intros [= <-]. lia.
Qed.




Lemma WeekDay_range (t : Z) : 0 <= WeekDay t <= 6.
Proof. unfold WeekDay. pose proof (Z.mod_pos_bound (Day t + 4) 7). lia. Qed.

(** What [getDeadline] and [isOverdue] compute from a clock reading. *)
Lemma deadline_computation (now weekNumber : Z) :
  let weekStart :=
    setDate (Some now)
      (num_add (num_sub (getDate (Some now)) (getDay (Some now)))
               (Some ((weekNumber - 1) * 7))) in
  setDate weekStart (num_add (getDate weekStart) (Some 9))
  = deadline_shifted_forward now weekNumber.
Proof.
  cbv zeta.
  assert (Hws : setDate (Some now)
                  (num_add (num_sub (getDate (Some now)) (getDay (Some now)))
                           (Some ((weekNumber - 1) * 7)))
                = weekStart_forward now weekNumber).
  { unfold weekStart_forward, daysIntoWeek, getDate, getDay. cbn [num_sub num_add].
    replace (DateFromTime (LocalTime now) - WeekDay (LocalTime now)
             + (weekNumber - 1) * 7)
      with (DateFromTime (LocalTime now)
            + ((weekNumber - 1) * 7 - WeekDay (LocalTime now))) by lia.
    apply setDate_shift. }
  rewrite Hws. unfold deadline_shifted_forward.
  destruct (weekStart_forward now weekNumber) as [ws|]; [|reflexivity].
  cbn [getDate num_add]. apply setDate_shift.
Qed.

Lemma getDeadline_run (a : ActivityTracker) (w : World) :
  getDeadline a w
  = (Return (deadline_shifted_forward (wallClock (clockReads w)) (weekNumber a)),
     set_clockReads (S (clockReads w)) w).
Proof.
  unfold getDeadline, newDate, mbind, M_bind, mret, M_ret.
  rewrite deadline_computation. reflexivity.
Qed.

End DateFacts.

(** ** The deadline *)

Section Deadline.
Context `{Host}.

Import JSDate.


End Deadline.

Section Overdue.
Context `{Host}.

Import JSDate.

(** C4.  [isOverdue] is false, whatever the deadline and without reading
    the clock, for a record whose [submittedAt] is not null; for a record
    not submitted it is true exactly when the current time, read after the
    deadline is computed, is after the deadline [getDeadline] computes. *)
Theorem isOverdue_spec (a : ActivityTracker) (w : World) :
  (submittedAt a <> None -> isOverdue a w = (Return false, w)) /\
  (submittedAt a = None ->
   exists deadline b,
     result (getDeadline a w) = Return deadline /\
     result (isOverdue a w) = Return b /\
     (b = true <->
      exists d, deadline = Some d /\ d < wallClock (S (clockReads w)))).
Proof.
  split.
  - intros Hs. unfold isOverdue. destruct (submittedAt a); [reflexivity | congruence].
  - intros Hs.
    exists (deadline_shifted_forward (wallClock (clockReads w)) (weekNumber a)).
    eexists. split; [|split].
    + rewrite getDeadline_run. reflexivity.
    + unfold isOverdue. rewrite Hs.
      unfold newDate, mbind, M_bind, mret, M_ret.
      rewrite deadline_computation. reflexivity.
    + cbn [clockReads set_clockReads]. unfold date_gt.
      destruct (deadline_shifted_forward _ _) as [d|].
      * rewrite Z.ltb_lt. split; [eauto|]. intros (d' & [= ->] & Hlt). exact Hlt.
      * split; [discriminate|]. intros (d' & [=] & _).
Qed.

Lemma filter_bool_Prop {A : Type} (f : A -> bool) (P : A -> Prop)
    `{forall x, Decision (P x)} (l : list A) :
  (forall x, f x = true <-> P x) -> List.filter f l = filter P l.
Proof.
  intros Hf. induction l as [|x l IH]; [reflexivity|].
  rewrite filter_cons. simpl. rewrite IH.
  destruct (decide (P x)) as [Hp|Hp].
  - apply Hf in Hp. rewrite Hp. reflexivity.
  - destruct (f x) eqn:E; [|reflexivity]. apply Hf in E. contradiction.
Qed.


End Overdue.



Lemma isOverdue_spec_witness :
  let h := Demo.host Demo.refusing in
  @isOverdue h (Demo.activity 1 10 1 1 (Some 1753000000000) 1752000000000) Demo.world0
  = (Return false, Demo.world0) /\
  result (@isOverdue h (Demo.activity 3 11 2 0 None 1750000000000) Demo.world0)
  = Return true.
Proof.
  cbv zeta. split.
  - apply (proj1 (@isOverdue_spec (Demo.host Demo.refusing)
                    (Demo.activity 1 10 1 1 (Some 1753000000000) 1752000000000)
                    Demo.world0)).
    discriminate.
  - destruct (proj2 (@isOverdue_spec (Demo.host Demo.refusing)
                       (Demo.activity 3 11 2 0 None 1750000000000) Demo.world0)
                eq_refl)
      as (deadline & b & Hd & Hb & Hiff).
    rewrite Hb. f_equal. apply Hiff.
    exists 1753783200000. split; [|reflexivity].
    vm_compute in Hd. congruence.
Defined.



(** ** The submit route: duplicate and late submissions *)

Section SubmitRouteFacts.
Context `{Host}.

(** What [submit] does to an instance and to the world: two readings of the
    clock, the first one becoming [submittedAt], and the row replaced. *)
Lemma submit_run (a : ActivityTracker) (w : World) :
  let a' :=
    set_updatedAt (wallClock (S (clockReads w)))
      (set_submittedAt (Some (wallClock (clockReads w))) a) in
  submit a w
  = (Return a',
     set_db (set_activity_trackers
               (map (fun r => if id r =? id a' then storedRow a' else r)
                    (activity_trackers (db w)))
               (db w))
       (set_clockReads (S (S (clockReads w))) w)).
Proof. reflexivity. Qed.

Lemma isOverdue_submitted (a : ActivityTracker) (w : World) :
  submittedAt a <> None -> isOverdue a w = (Return false, w).
Proof.
  intros Hs. unfold isOverdue. destruct (submittedAt a); [reflexivity | congruence].
Qed.

Lemma findByPk_world (pk : option Z) (w : World) : world (findByPk pk w) = w.
Proof. destruct pk; reflexivity. Qed.

Lemma findByPk_result (pk : option Z) (w : World) (found : option ActivityTracker) :
  result (findByPk pk w) = Return found -> findByPk pk w = (Return found, w).
Proof. destruct pk; [intros [= <-]; reflexivity | discriminate]. Qed.

Lemma notOwner_world (req : Request) (a : ActivityTracker) (w : World) :
  world (notOwner req a w) = w.
Proof.
  unfold notOwner. destruct (Role_eqb _ _); [|reflexivity].
  destruct (facilitatorProfile req); reflexivity.
Qed.

(** C5, as the code has it.  A request for a record whose [submittedAt] is
    not null is turned down before [submit] is called: the world, and with
    it the record, is unchanged.  The checks come in the order role,
    ownership, duplicate: a student gets the 403 of the role check; a
    facilitator whose profile is not the one of the log gets the 403 of the
    access check; a facilitator without profile makes the handler throw a
    TypeError; a manager, and the facilitator who owns the log, get the 400
    of the duplicate check.  [submit] itself has no guard: it overwrites
    [submittedAt] with the clock reading, whatever it was, on the instance
    and, at the precision of the database, in the row. *)
Theorem submitRoute_rejects_resubmission :
  (forall (req : Request) (w : World) (a : ActivityTracker),
     result (findByPk (params_id req) w) = Return (Some a) ->
     submittedAt a <> None ->
     world (submitRoute req w) = w /\
     (forall r, result (submitRoute req w) = Return r ->
                res_code r = 400 \/ res_code r = 403) /\
     (mayAccess req a -> result (submitRoute req w) = Return alreadySubmitted) /\
     (forall p, user_role req = facilitator -> facilitatorProfile req = Some p ->
                p <> facilitatorId a ->
                result (submitRoute req w) = Return notOwnLog) /\
     (user_role req = facilitator -> facilitatorProfile req = None ->
      result (submitRoute req w) = Throw TypeError) /\
     (user_role req = student -> result (submitRoute req w) = Return roleDenied)) /\
  (forall (a : ActivityTracker) (w : World),
     exists a', result (submit a w) = Return a' /\
                submittedAt a' = Some (wallClock (clockReads w)) /\
                (forall r, In r (activity_trackers (db w)) -> id r = id a ->
                           In (storedRow a') (activity_trackers (db (world (submit a w)))) /\
                           submittedAt (storedRow a')
                           = Some (sqlDate (wallClock (clockReads w))))).
Proof.
  split.
  - intros req w a Hfind Hsub.
    apply findByPk_result in Hfind.
    unfold submitRoute, authorize, mayAccess.
    destruct (user_role req) eqn:Hrole; cbn [existsb Role_eqb orb].
    + (* manager *)
      unfold submitHandler, mbind, M_bind. rewrite Hfind.
      unfold notOwner. rewrite Hrole. cbn [Role_eqb]. unfold mret, M_ret.
      destruct (submittedAt a); [|congruence].
      cbn [result world fst snd].
      split; [reflexivity|]. split; [intros r [= <-]; left; reflexivity|].
      split; [reflexivity|].
      split; [intros p [=]|]. split; intros [=].
    + (* facilitator *)
      unfold submitHandler, mbind, M_bind. rewrite Hfind.
      unfold notOwner. rewrite Hrole. cbn [Role_eqb].
      destruct (facilitatorProfile req) as [p|] eqn:Hp.
      * unfold mret, M_ret.
        destruct (Z.eqb_spec (facilitatorId a) p) as [Heq|Hne]; cbn [negb].
        -- destruct (submittedAt a); [|congruence].
           cbn [result world fst snd].
           split; [reflexivity|]. split; [intros r [= <-]; left; reflexivity|].
           split; [reflexivity|].
           split; [intros p' _ [= <-] Hp'; congruence|].
           split; [intros _ [=] | intros [=]].
        -- cbn [result world fst snd].
           split; [reflexivity|]. split; [intros r [= <-]; right; reflexivity|].
           split; [intros [[=] | [_ [= Hown]]]; congruence|].
           split; [reflexivity|].
           split; [intros _ [=] | intros [=]].
      * unfold throw. cbn [result world fst snd].
        split; [reflexivity|]. split; [intros r [=]|].
        split; [intros [[=] | [_ [=]]]|].
        split; [intros p' _ [=]|].
        split; [reflexivity | intros [=]].
    + (* student *)
      unfold mret, M_ret. cbn [result world fst snd].
      split; [reflexivity|]. split; [intros r [= <-]; right; reflexivity|].
      split; [intros [[=] | [[=] _]]|].
      split; [intros p [=]|]. split; [intros [=] | reflexivity].
  - intros a w. eexists. rewrite submit_run. cbv zeta.
    split; [reflexivity|]. split; [reflexivity|].
    intros r Hin Hid. split; [|reflexivity].
    cbn [world snd db set_db activity_trackers set_activity_trackers set_clockReads].
    apply in_map_iff. exists r. split; [|assumption].
    cbn [id set_updatedAt set_submittedAt]. rewrite Hid, Z.eqb_refl. reflexivity.
Qed.

(** C10.  After [submit] the instance has a non-null [submittedAt], so the
    [isOverdue] guard of the handler is false; whatever the request and the
    world (in particular, however late the submission is) the route leaves
    the alert queue as it was: no late-submission alert is enqueued. *)
Theorem submitRoute_never_alerts :
  (forall (a : ActivityTracker) (w : World),
     exists a' w', submit a w = (Return a', w') /\
                   submittedAt a' <> None /\
                   isOverdue a' w' = (Return false, w')) /\
  (forall (req : Request) (w : World),
     alertQueue (world (submitRoute req w)) = alertQueue w).
Proof.
  split.
  - intros a w. do 2 eexists. rewrite submit_run. cbv zeta.
    split; [reflexivity|]. split; [discriminate|].
    apply isOverdue_submitted. discriminate.
  - intros req w. unfold submitRoute.
    destruct (authorize _ req); [reflexivity|].
    unfold submitHandler, mbind, M_bind.
    pose proof (findByPk_world (params_id req) w) as Hfw.
    destruct (findByPk (params_id req) w) as [[found|e] w0]; cbn in Hfw; subst w0;
      [|reflexivity].
    destruct found as [a|]; [|reflexivity].
    pose proof (notOwner_world req a w) as Hw.
    destruct (notOwner req a w) as [[denied|e] w1]; cbn in Hw; subst w1;
      [|reflexivity].
    destruct denied; [reflexivity|].
    destruct (submittedAt a) eqn:Hs; [reflexivity|].
    rewrite submit_run. cbv zeta.
    rewrite isOverdue_submitted by discriminate.
    cbv beta iota. unfold mret, M_ret. cbv beta iota.
    match goal with
    | |- context [findByPk ?pk ?w1] =>
        pose proof (findByPk_world pk w1) as Hfw1;
        destruct (findByPk pk w1) as [[found1|e1] w2]; cbn in Hfw1; subst w2
    end; reflexivity.
Qed.

End SubmitRouteFacts.

(** The case C5 as worded fails on: facilitator 2 asks to submit log 1,
    which belongs to facilitator 1 and is already submitted; the answer is
    the 403 of the access check, not the 400 of the duplicate check. *)
Lemma submitRoute_resubmission_forbidden :
  let h := Demo.host Demo.refusing in
  let req := {| params_id := Some 1; user_role := facilitator;
                facilitatorProfile := Some 2 |} in
  (exists a, result (findByPk (params_id req) Demo.world0) = Return (Some a) /\
             submittedAt a = Some 1753000000000) /\
  exists r, result (@submitRoute h req Demo.world0) = Return r /\
            res_code r = 403 /\ res_code r <> 400.
Proof.
  cbv zeta. split.
  - eexists. split; reflexivity.
  - eexists. split; [reflexivity|]. split; [reflexivity | discriminate].
Qed.

(** Log 1 of the example world is submitted: facilitator 1, who owns it,
    gets the 400 and facilitator 2 the 403; nothing changes. *)
Lemma submitRoute_rejects_resubmission_witness :
  let h := Demo.host Demo.refusing in
  let own := {| params_id := Some 1; user_role := facilitator;
                facilitatorProfile := Some 1 |} in
  let other := {| params_id := Some 1; user_role := facilitator;
                  facilitatorProfile := Some 2 |} in
  @submitRoute h own Demo.world0 = (Return alreadySubmitted, Demo.world0) /\
  @submitRoute h other Demo.world0 = (Return notOwnLog, Demo.world0).
Proof.
  cbv zeta. split.
  - destruct (proj1 (@submitRoute_rejects_resubmission (Demo.host Demo.refusing))
                {| params_id := Some 1; user_role := facilitator;
                   facilitatorProfile := Some 1 |}
                Demo.world0
                (Demo.activity 1 10 1 1 (Some 1753000000000) 1752000000000)
                eq_refl ltac:(discriminate)) as (Hw & _ & H400 & _).
    specialize (H400 ltac:(right; split; reflexivity)).
    destruct (submitRoute _ _) as [r w']. cbn in *. congruence.
  - destruct (proj1 (@submitRoute_rejects_resubmission (Demo.host Demo.refusing))
                {| params_id := Some 1; user_role := facilitator;
                   facilitatorProfile := Some 2 |}
                Demo.world0
                (Demo.activity 1 10 1 1 (Some 1753000000000) 1752000000000)
                eq_refl ltac:(discriminate)) as (Hw & _ & _ & H403 & _).
    specialize (H403 2 eq_refl eq_refl ltac:(discriminate)).
    destruct (submitRoute _ _) as [r w']. cbn in *. congruence.
Defined.

(** Log 3 is overdue before its submission, and its submission by its
    owner succeeds without any alert. *)
Example submitRoute_late_submission_silent :
  let h := Demo.host Demo.refusing in
  let req := {| params_id := Some 3; user_role := facilitator;
                facilitatorProfile := Some 2 |} in
  result (@isOverdue h (Demo.activity 3 11 2 0 None 1750000000000) Demo.world0)
  = Return true /\
  (exists r, result (@submitRoute h req Demo.world0) = Return r /\ res_code r = 200) /\
  alertQueue (world (@submitRoute h req Demo.world0)) = [].
Proof.
  cbv zeta. split; [reflexivity|]. split; [|reflexivity].
  eexists. split; reflexivity.
Qed.

(** ** The notification log *)

Lemma redis_range_head (l : list string) (n : Z) :
  0 <= n -> redis_range l 0 n = take (Z.to_nat (n + 1)) l.
Proof.
  intros Hn. unfold redis_range. cbv zeta.
  change (0 <? 0) with false. cbv iota.
  change (0 <? 0) with false. cbv iota.
  destruct (Z.ltb_spec n 0) as [|_]; [lia|].
  destruct (Z.ltb_spec n 0) as [|_]; [lia|].
  destruct (Z.leb_spec (Z.of_nat (length l)) 0) as [Hlen|Hlen]; cbn [orb].
  - destruct l; [by rewrite take_nil | simpl in Hlen; lia].
  - change (Z.to_nat 0) with 0%nat. rewrite drop_0.
    destruct (Z.leb_spec (Z.of_nat (length l)) n) as [Hle|Hlt].
    + rewrite !take_ge by lia. reflexivity.
    + do 2 f_equal. lia.
Qed.

Lemma take_app_take {A : Type} (n : nat) (xs ys : list A) :
  take n (xs ++ take n ys) = take n (xs ++ ys).
Proof.
  rewrite !take_app, take_take. f_equal. f_equal. lia.
Qed.

Lemma logKey_not_recent (a b : string) :
  "notification_log:" +:+ a +:+ ":" +:+ b <> "recent_notifications".
Proof. discriminate. Qed.

Section NotificationLog.
Context `{Host}.

(** One call of [logNotification] in a world whose list key is sound. *)
Lemma logNotification_run (o : JsObject) (w : World) (l : list string) :
  recentList w = Some l ->
  let w' := world (logNotification o w) in
  result (logNotification o w) = Return tt /\
  recentList w'
  = Some (take 100 (JSON_stringify (stamped o (wallClock (S (clockReads w)))) :: l)) /\
  clockReads w' = S (S (clockReads w)) /\
  emailQueue w' = emailQueue w /\ alertQueue w' = alertQueue w /\
  db w' = db w /\ mailsSent w' = mailsSent w.
Proof.
  intros Hl. cbv zeta.
  unfold logNotification, try_catch, mbind, M_bind, newDate, random, setEx, modify,
    lPush, lTrim.
  cbn [redis set_redis set_clockReads set_randomDraws clockReads randomDraws].
  rewrite lookup_insert_ne by apply logKey_not_recent.
  unfold recentList in Hl.
  destruct (redis w !! "recent_notifications") as [[v t|l']|] eqn:Hr;
    [discriminate| |]; injection Hl as <-;
    cbn [redis set_redis]; rewrite lookup_insert_eq;
    rewrite redis_range_head by lia; change (Z.to_nat (99 + 1)) with 100%nat;
    cbn [take]; unfold recentList, result, world;
    cbn [fst snd redis set_redis clockReads emailQueue alertQueue db mailsSent];
    rewrite lookup_insert_eq; repeat split; reflexivity.
Qed.

(** Whatever Redis holds, [logNotification] returns and leaves the queues,
    the database and the transport alone. *)
Lemma logNotification_frame (o : JsObject) (w : World) :
  let w' := world (logNotification o w) in
  result (logNotification o w) = Return tt /\
  emailQueue w' = emailQueue w /\ alertQueue w' = alertQueue w /\
  db w' = db w /\ mailsSent w' = mailsSent w.
Proof.
  cbv zeta.
  unfold logNotification, try_catch, mbind, M_bind, newDate, random, setEx, modify,
    lPush, lTrim.
  cbn [redis set_redis set_clockReads set_randomDraws clockReads randomDraws].
  destruct (_ !! "recent_notifications") as [[v t|l']|];
    cbn [redis set_redis]; rewrite ?lookup_insert_eq;
    try (destruct (redis_range _ 0 99)); repeat split; reflexivity.
Qed.

End NotificationLog.

Section NotificationRoundTrip.
Context `{Host}.

Lemma logAll_run (os : list JsObject) (w : World) (l0 : list string) :
  recentList w = Some l0 -> (length l0 <= 100)%nat ->
  result (logAll os w) = Return tt /\
  recentList (world (logAll os w))
  = Some (take 100 (reverse (map JSON_stringify (stampedAll os (clockReads w))) ++ l0)).
Proof.
  revert w l0. induction os as [|o os IH]; intros w l0 Hl Hlen.
  - split; [reflexivity|]. cbn. rewrite take_ge by lia. exact Hl.
  - destruct (logNotification_run o w l0 Hl) as (Hres & Hrec & Hclock & _).
    unfold logAll in *. cbn [for_of]. unfold mbind, M_bind.
    destruct (logNotification o w) as [r w1]. cbn [result world fst snd] in *.
    subst r.
    destruct (IH w1 _ Hrec) as (Hres' & Hrec').
    { rewrite length_take. lia. }
    split; [exact Hres'|].
    rewrite Hrec', Hclock. cbn [stampedAll map].
    rewrite reverse_cons, <- app_assoc. cbn [app].
    rewrite take_app_take. reflexivity.
Qed.

Lemma stored_parse (entries : list JsObject) :
  Forall (fun o => JSON_parse (JSON_stringify o) = Some (jsonValue o)) entries ->
  Forall2 (fun s d => JSON_parse s = Some d)
          (map JSON_stringify entries) (map jsonValue entries).
Proof.
  induction 1 as [|o entries Ho _ IH]; cbn; constructor; assumption.
Qed.

Lemma getRecentNotifications_run (w : World) (l : list string) (ds : list JsObject)
    (n : Z) :
  recentList w = Some l -> mapM JSON_parse l = Some ds -> 1 <= n ->
  getRecentNotifications (Some n) w = (Return (take (Z.to_nat n) ds), w).
Proof.
  intros Hl Hds Hn.
  assert (Hparse : mapM JSON_parse (redis_range l 0 (n - 1))
                   = Some (take (Z.to_nat n) ds)).
  { rewrite redis_range_head by lia.
    replace (n - 1 + 1) with n by lia.
    apply mapM_Some. apply Forall2_take. apply mapM_Some. exact Hds. }
  unfold getRecentNotifications, try_catch, mbind, M_bind, lRange. cbn [default].
  unfold recentList in Hl.
  destruct (redis w !! "recent_notifications") as [[v t|l']|];
    [discriminate| |]; injection Hl as <-; change (Datatypes.id n) with n.
  - rewrite Hparse. reflexivity.
  - cbn in Hds. injection Hds as <-. rewrite take_nil. reflexivity.
Qed.

(** C7.  Entries written by [logNotification], one after the other, into a
    store whose list is sound, and which the JSON codec carries, come back
    from [getRecentNotifications n] for every n >= 1 as JSON carries them,
    the most recently written first, followed by what the list held
    before; the stored list never exceeds 100 entries, the oldest leaving
    first; the entry written [i] calls before the last one is at index [i]
    of the result as long as i < 100 and i < n. *)
Theorem logNotification_roundtrip (os : list JsObject) (w : World)
    (l0 : list string) (old : list JsObject) :
  recentList w = Some l0 -> (length l0 <= 100)%nat ->
  mapM JSON_parse l0 = Some old ->
  Forall (fun o => JSON_parse (JSON_stringify o) = Some (jsonValue o))
         (stampedAll os (clockReads w)) ->
  let w' := world (logAll os w) in
  let written := map jsonValue (stampedAll os (clockReads w)) in
  let retained := take 100 (reverse written ++ old) in
  (exists l, recentList w' = Some l /\ (length l <= 100)%nat /\
             mapM JSON_parse l = Some retained) /\
  (forall n, 1 <= n ->
     getRecentNotifications (Some n) w' = (Return (take (Z.to_nat n) retained), w')) /\
  (forall (i : nat) (o : JsObject) (n : Z),
     reverse written !! i = Some o -> (i < 100)%nat -> Z.of_nat i < n ->
     exists r, result (getRecentNotifications (Some n) w') = Return r /\
               r !! i = Some o).
Proof.
  intros Hl Hlen Hold Hcodec. cbv zeta.
  destruct (logAll_run os w l0 Hl Hlen) as (_ & Hrec).
  assert (Hdec : mapM JSON_parse
                   (take 100 (reverse (map JSON_stringify (stampedAll os (clockReads w)))
                              ++ l0))
                 = Some (take 100 (reverse (map jsonValue (stampedAll os (clockReads w)))
                                   ++ old))).
  { apply mapM_Some. apply Forall2_take. apply Forall2_app.
    - apply Forall2_reverse. apply stored_parse. exact Hcodec.
    - apply mapM_Some. exact Hold. }
  split; [|split].
  - eexists. split; [exact Hrec|]. split; [|exact Hdec].
    rewrite length_take. lia.
  - intros n Hn. apply (getRecentNotifications_run _ _ _ _ Hrec Hdec Hn).
  - intros i o n Hi Hi100 Hin.
    rewrite (getRecentNotifications_run _ _ _ _ Hrec Hdec) by lia.
    eexists. split; [reflexivity|].
    rewrite !lookup_take_lt by lia.
    rewrite lookup_app_l; [exact Hi|].
    apply lookup_lt_Some in Hi. exact Hi.
Qed.

End NotificationRoundTrip.

(** Two entries logged into the empty store of the example world. *)
Lemma logNotification_roundtrip_witness :
  let h := Demo.host Demo.refusing in
  let first : JsObject := {[ "subject" := JsStr "first" ]} in
  let second : JsObject := {[ "subject" := JsStr "second" ]} in
  result (@getRecentNotifications h (Some 5)
            (world (@logAll h [first; second] Demo.world0)))
  = Return [ @stamped second 1753869600003; @stamped first 1753869600001 ].
Proof.
  cbv zeta.
  destruct (@logNotification_roundtrip (Demo.host Demo.refusing)
              [ {[ "subject" := JsStr "first" ]}; {[ "subject" := JsStr "second" ]} ]
              Demo.world0 [] [])
    as (_ & Hget & _).
  - reflexivity.
  - simpl. lia.
  - reflexivity.
  - repeat constructor.
  - rewrite (Hget 5) by lia. vm_compute. reflexivity.
Defined.

(** ** Alert fan-out *)

Section AlertFanOut.
Context `{Host}.

Lemma for_of_append {A : Type} (xs : list A) (body : A -> M unit)
    (mk : A -> Job EmailData) :
  (forall x w, body x w = (Return tt, set_emailQueue (emailQueue w ++ [mk x]) w)) ->
  forall w, for_of xs body w
            = (Return tt, set_emailQueue (emailQueue w ++ map mk xs) w).
Proof.
  intros Hbody. induction xs as [|x xs IH]; intros w.
  - cbn. rewrite app_nil_r. destruct w; reflexivity.
  - cbn [for_of]. unfold mbind, M_bind. rewrite Hbody, IH.
    destruct w; cbn. rewrite <- app_assoc. reflexivity.
Qed.

Lemma Manager_findAll_active (d : Database) :
  map (fun mu : Manager * User => email (snd mu))
      (omap (fun m =>
               match List.find (fun u => user_id u =? manager_userId m) (users d) with
               | Some u => if isActive u then Some (m, u) else None
               | None => None
               end)
            (managers d))
  = map (managerEmail d) (activeManagers d).
Proof.
  unfold activeManagers.
  induction (managers d) as [|m ms IH]; [reflexivity|].
  cbn [omap list_omap]. rewrite filter_cons.
  assert (Hm : match List.find (fun u => user_id u =? manager_userId m) (users d) with
               | Some u => if isActive u then Some (m, u) else None
               | None => None
               end = pair m <$> activeUser d m).
  { unfold activeUser. destruct (List.find _ _) as [u|]; [|reflexivity].
    destruct (isActive u); reflexivity. }
  rewrite Hm. clear Hm.
  destruct (activeUser d m) as [u|] eqn:E; cbn [fmap option_fmap option_map].
  - destruct (decide _) as [_|Hn]; [|exfalso; apply Hn; eauto].
    cbn [map snd]. rewrite IH. unfold managerEmail at 2. rewrite E. reflexivity.
  - destruct (decide _) as [[? [=]]|_]. exact IH.
Qed.

Lemma recognized_alertMessage (type : string) (data : JsObject) :
  In type recognizedTypes -> is_Some (alertMessage type data).
Proof.
  intros [<- | [<- | [<- | []]]]; eexists; reflexivity.
Qed.

Lemma setupAlertProcessor_run (job : Job AlertJob) (w : World) (subj body : string) :
  alertMessage (alertType (jobData job)) (alertData (jobData job)) = Some (subj, body) ->
  exists (w2 : World) (ms : list (Manager * User)),
    Manager_findAll w = (Return ms, w) /\
    setupAlertProcessor job w = (Return {| success := true; messageId := None |}, w2) /\
    emailQueue w2 = emailQueue w ++ map (alertEmail subj body) ms.
Proof.
  intros Hmsg. unfold setupAlertProcessor, try_catch, mbind, M_bind.
  unfold Manager_findAll at 2, get. rewrite Hmsg.
  rewrite (for_of_append _ _ (alertEmail subj body)) by (intros; reflexivity).
  match goal with
  | |- context [logNotification ?o ?w1] =>
      pose proof (logNotification_frame o w1) as Hlog;
      destruct (logNotification o w1) as [r w2]
  end.
  cbv zeta in Hlog. cbn [result world fst snd] in Hlog.
  destruct Hlog as (-> & Hq & _).
  eexists w2, _. split; [reflexivity|]. split; [reflexivity|].
  rewrite Hq. reflexivity.
Qed.

(** C6.  Processing a manager-alert job of a recognized type succeeds and
    appends to the email queue exactly one send-email job per manager
    whose user is active in the database the processor reads, that is at
    processing time, addressed to that manager; enqueueing the alert stores
    the type and the data only and adds no email job. *)
Theorem setupAlertProcessor_fans_out :
  (forall (job : Job AlertJob) (w : World),
     In (alertType (jobData job)) recognizedTypes ->
     exists (subj body : string) (newJobs : list (Job EmailData)),
       alertMessage (alertType (jobData job)) (alertData (jobData job))
       = Some (subj, body) /\
       result (setupAlertProcessor job w)
       = Return {| success := true; messageId := None |} /\
       emailQueue (world (setupAlertProcessor job w)) = emailQueue w ++ newJobs /\
       length newJobs = length (activeManagers (db w)) /\
       map (fun j => to (jobData j)) newJobs
       = map (managerEmail (db w)) (activeManagers (db w)) /\
       Forall (fun j => jobName j = "send-email" /\
                        subject (jobData j) = subj /\ text (jobData j) = body /\
                        jobOpts j = defaultEmailJobOptions /\
                        jobState j = Waiting /\ attemptsMade j = 0)
              newJobs) /\
  (forall (type : string) (data : JsObject) (delay : Z) (w : World),
     let w' := world (queueManagerAlert type data delay w) in
     emailQueue w' = emailQueue w /\ db w' = db w /\
     exists job, alertQueue w' = alertQueue w ++ [job] /\
                 jobData job = {| alertType := type; alertData := data |} /\
                 attempts (jobOpts job) = 2).
Proof.
  split.
  - intros job w Hrec.
    destruct (recognized_alertMessage _ (alertData (jobData job)) Hrec)
      as ([subj body] & Hmsg).
    destruct (setupAlertProcessor_run job w subj body Hmsg)
      as (w2 & ms & Hms & Hrun & Hq).
    exists subj, body, (map (alertEmail subj body) ms).
    split; [exact Hmsg|]. rewrite Hrun. cbn [result world fst snd].
    injection Hms as <-.
    split; [reflexivity|]. split; [exact Hq|].
    split; [|split].
    + rewrite length_map, <- (length_map (managerEmail (db w))),
        <- Manager_findAll_active, length_map. reflexivity.
    + rewrite <- Manager_findAll_active, map_map. reflexivity.
    + apply Forall_forall. intros j Hj.
      apply list_elem_of_fmap in Hj as (mu & -> & _).
      repeat split.
  - intros type data delay w. cbv zeta. split; [reflexivity|]. split; [reflexivity|].
    eexists. split; [reflexivity|]. split; reflexivity.
Qed.

End AlertFanOut.

(** The scenario of the specification: an overdue-submission alert with
    three active managers in the store (and a deactivated one). *)
Lemma setupAlertProcessor_fans_out_witness :
  let h := Demo.host Demo.refusing in
  let job :=
    newJob "manager-alert"
      {| alertType := "overdue-submission";
         alertData := list_to_map [("count", JsNum 5); ("facilitators", JsNum 2)] |}
      {| delay := 0; attempts := 2; backoff := None;
         removeOnComplete := 5; removeOnFail := 3 |} in
  map (fun j => to (jobData j))
      (emailQueue (world (@setupAlertProcessor h job Demo.world0)))
  = ["alice@alu.edu"; "bob@alu.edu"; "dan@alu.edu"].
Proof.
  cbv zeta.
  destruct (proj1 (@setupAlertProcessor_fans_out (Demo.host Demo.refusing))
              (newJob "manager-alert"
                 {| alertType := "overdue-submission";
                    alertData :=
                      list_to_map [("count", JsNum 5); ("facilitators", JsNum 2)] |}
                 {| delay := 0; attempts := 2; backoff := None;
                    removeOnComplete := 5; removeOnFail := 3 |})
              Demo.world0)
    as (subj & body & newJobs & _ & _ & Hq & _ & Hto & _).
  - left. reflexivity.
  - rewrite Hq. cbn [emailQueue Demo.world0 app]. rewrite Hto. reflexivity.
Defined.

(** ** Retries of an email job *)

Section EmailRetries.
Context `{Host}.



Lemma failedAttempts_S (d : EmailData) (k c n : nat) :
  failedAttempts d k c (S n)
  = failedAttempts d (S k) (S (S c)) n ++ [failedAttempt d k c 0].
Proof.
  unfold failedAttempts. cbn [seq map]. rewrite reverse_cons. f_equal. f_equal.
  rewrite <- seq_shift, map_map. apply map_ext. intros j. unfold failedAttempt.
  replace (k + S j)%nat with (S k + j)%nat by lia.
  replace (c + 2 * S j)%nat with (S (S c) + 2 * j)%nat by lia. reflexivity.
Qed.






(** A pick of a job that is completed or failed changes nothing. *)
Lemma emailWorker_terminal (i : nat) (job : Job EmailData) (w : World) :
  emailQueue w !! i = Some job -> ~ pickable job ->
  world (emailWorker i w) = w.
Proof.
  intros Hjob Hterm. unfold emailWorker. rewrite Hjob.
  unfold mbind, M_bind, processJob, modify. unfold pickable in Hterm.
  destruct (jobState job); try (exfalso; apply Hterm; exact I);
    cbn [world snd]; rewrite list_insert_id by exact Hjob;
    destruct w; reflexivity.
Qed.

Lemma picks_terminal (m i : nat) (job : Job EmailData) (w : World) :
  emailQueue w !! i = Some job -> ~ pickable job -> picks m i w = w.
Proof.
  intros Hjob Hterm. induction m as [|m IH]; [reflexivity|].
  cbn [picks]. rewrite (emailWorker_terminal i job w Hjob Hterm). exact IH.
Qed.



End EmailRetries.



(** On a transport that delivers, the first pick completes the job with the
    message id of the provider and writes one 'sent' entry; later picks
    change nothing. *)
Example emailJob_delivered :
  let h := Demo.host Demo.delivering in
  let d := {| to := "eve@alu.edu"; subject := "Reminder"; text := "Please submit";
              html := None; type := Some "reminder" |} in
  let w1 := @picks h 1 0 (world (queueEmail d noOptions Demo.world0)) in
  (exists job, emailQueue w1 !! 0%nat = Some job /\
               jobState job
               = Completed {| success := true;
                              messageId := Some "<0@coursemanagement.com>" |} /\
               attemptsMade job = 0) /\
  map (fun s => @JSON_parse h s ≫= fun o => o !! "status") (Demo.recentEntries w1)
  = [Some (JsStr "sent")] /\
  @picks h 5 0 w1 = w1.
Proof.
  cbv zeta. split; [|split].
  - eexists. vm_compute. repeat split; reflexivity.
  - vm_compute. reflexivity.
  - vm_compute. reflexivity.
Qed.

(** * Further properties *)

(** * Further properties *)

(** ** Task fields by name *)

Lemma includes_In (l : list string) (s : string) :
  includes l s = true <-> In s l.
Proof.
  unfold includes. rewrite existsb_exists. split.
  - intros (x & Hin & Heq). apply String.eqb_eq in Heq. subst. exact Hin.
  - intros Hin. exists s. split; [exact Hin | apply String.eqb_refl].
Qed.

Section TaskFields.
Context `{Host}.


(** X2.  A task name outside the six, or a status outside the three, is
    refused with an exception before anything is written: [getTaskStatus]
    and [updateTaskStatus] throw, and [updateTaskStatus] leaves the world,
    clock included, as it was. *)
Theorem updateTaskStatus_invalid (this : ActivityTracker) (taskName status : string)
    (w : World) :
  (~ In taskName validTasks ->
   getTaskStatus this taskName = Throw ("Invalid task name: " +:+ taskName) /\
   updateTaskStatus this taskName status w
   = (Throw ("Invalid task name: " +:+ taskName), w)) /\
  (In taskName validTasks -> ~ In status validStatuses ->
   updateTaskStatus this taskName status w
   = (Throw ("Invalid status: " +:+ status), w)).
Proof.
  split.
  - intros Hname.
    assert (Hinc : includes validTasks taskName = false).
    { destruct (includes validTasks taskName) eqn:E; [|reflexivity].
      apply includes_In in E. contradiction. }
    unfold getTaskStatus, updateTaskStatus. rewrite Hinc. split; reflexivity.
  - intros Hname Hstatus.
    assert (Hinc : includes validStatuses status = false).
    { destruct (includes validStatuses status) eqn:E; [|reflexivity].
      apply includes_In in E. contradiction. }
    unfold updateTaskStatus.
    rewrite (proj2 (includes_In _ _) Hname), Hinc. reflexivity.
Qed.

End TaskFields.


Lemma updateTaskStatus_invalid_witness :
  let h := Demo.host Demo.refusing in
  let a := Demo.activity 2 10 1 2 None 1753800000000 in
  @updateTaskStatus h a "notes" "Done" Demo.world0
  = (Throw "Invalid task name: notes", Demo.world0) /\
  @updateTaskStatus h a "intranetSync" "done" Demo.world0
  = (Throw "Invalid status: done", Demo.world0).
Proof.
  cbv zeta. split.
  - apply (proj1 (@updateTaskStatus_invalid (Demo.host Demo.refusing)
                    (Demo.activity 2 10 1 2 None 1753800000000) "notes" "Done"
                    Demo.world0)).
    cbn. intros [H|[H|[H|[H|[H|[H|[]]]]]]]; discriminate.
  - apply (proj2 (@updateTaskStatus_invalid (Demo.host Demo.refusing)
                    (Demo.activity 2 10 1 2 None 1753800000000) "intranetSync" "done"
                    Demo.world0)).
    + cbn. tauto.
    + cbn. intros [H|[H|[H|[]]]]; discriminate.
Defined.

(** ** Completion and attendance figures *)

Lemma countStatus_le (s : TaskStatus) (l : list TaskStatus) :
  (countStatus s l <= length l)%nat.
Proof. unfold countStatus. apply length_filter. Qed.

Lemma countStatus_all (s : TaskStatus) (l : list TaskStatus) :
  countStatus s l = length l <-> Forall (fun x => x = s) l.
Proof.
  unfold countStatus. induction l as [|x l IH].
  - split; [constructor | reflexivity].
  - rewrite filter_cons. destruct (decide (x = s)) as [->|Hne].
    + cbn [length]. split.
      * intros [= Hl]. constructor; [reflexivity | apply IH; exact Hl].
      * intros Hall. apply Forall_cons_1 in Hall as [_ Hall].
        f_equal. apply IH. exact Hall.
    + split.
      * intros Hl. pose proof (length_filter (fun x => x = s) l) as Hle.
        cbn [length] in Hl. lia.
      * intros Hall. apply Forall_cons_1 in Hall as [Hx _]. contradiction.
Qed.

Lemma countStatus_some (s : TaskStatus) (l : list TaskStatus) :
  (0 < countStatus s l)%nat <-> Exists (fun x => x = s) l.
Proof.
  unfold countStatus. induction l as [|x l IH].
  - cbn. split; [lia | intros Hex; inversion Hex].
  - rewrite filter_cons. destruct (decide (x = s)) as [->|Hne].
    + cbn [length]. split; [intros _; left; reflexivity | lia].
    + rewrite IH. split.
      * intros Hex. right. exact Hex.
      * intros Hex. inversion Hex; [contradiction | assumption].
Qed.

Lemma percentage_full (c : nat) :
  (c <= 6)%nat ->
  PrimFloat.eqb (percentage c 6) 100%float = Nat.eqb c 6.
Proof.
  intros Hc. do 7 (destruct c as [|c]; [reflexivity|]). lia.
Qed.

(** X3.  [isFullyCompleted] holds exactly when the six tasks are 'Done',
    which is exactly when [completionPercentage] is 100; [hasPendingTasks]
    holds exactly when one of the six is 'Pending'. *)
Theorem isFullyCompleted_spec (a : ActivityTracker) :
  (isFullyCompleted a = true <-> Forall (fun s => s = Done) (taskFields a)) /\
  PrimFloat.eqb (completionPercentage (getOverallProgress a)) 100%float
  = isFullyCompleted a /\
  (hasPendingTasks a = true <-> Exists (fun s => s = Pending) (taskFields a)).
Proof.
  assert (Hc : completed (getOverallProgress a) = countStatus Done (taskFields a))
    by apply filter_TaskStatus_eqb.
  assert (Hp : pending (getOverallProgress a) = countStatus Pending (taskFields a))
    by apply filter_TaskStatus_eqb.
  assert (Hpc : completionPercentage (getOverallProgress a)
                = percentage (countStatus Done (taskFields a)) 6).
  { unfold percentage. rewrite <- Hc. reflexivity. }
  assert (Hfull : isFullyCompleted a = Nat.eqb (countStatus Done (taskFields a)) 6).
  { unfold isFullyCompleted. rewrite Hc. reflexivity. }
  split; [|split].
  - rewrite Hfull, Nat.eqb_eq.
    apply (countStatus_all Done (taskFields a)).
  - rewrite Hpc, Hfull. apply percentage_full.
    apply (countStatus_le Done (taskFields a)).
  - unfold hasPendingTasks. rewrite Hp, Nat.ltb_lt.
    apply countStatus_some.
Qed.

Lemma presentDays_le (att : list bool) : (presentDays att <= length att)%nat.
Proof. unfold presentDays. apply length_filter. Qed.

Lemma presentDays_all (att : list bool) :
  presentDays att = length att <-> Forall (fun day => day = true) att.
Proof.
  unfold presentDays. induction att as [|x l IH].
  - split; [constructor | reflexivity].
  - rewrite filter_cons. destruct (decide (x = true)) as [->|Hne].
    + cbn [length]. split.
      * intros [= Hl]. constructor; [reflexivity | apply IH; exact Hl].
      * intros Hall. apply Forall_cons_1 in Hall as [_ Hall].
        f_equal. apply IH. exact Hall.
    + split.
      * intros Hl. pose proof (length_filter (fun x => x = true) l) as Hle.
        cbn [length] in Hl. lia.
      * intros Hall. apply Forall_cons_1 in Hall as [Hx _]. contradiction.
Qed.

Lemma presentDays_none (att : list bool) :
  presentDays att = 0%nat <-> Forall (fun day => day = false) att.
Proof.
  unfold presentDays. induction att as [|x l IH].
  - split; [constructor | reflexivity].
  - rewrite filter_cons. destruct x.
    + destruct (decide (true = true)) as [_|Hn]; [|congruence]. cbn [length]. split.
      * discriminate.
      * intros Hall. apply Forall_cons_1 in Hall as [Hx _]. discriminate.
    + destruct (decide (false = true)) as [Hn|_]; [discriminate|]. rewrite IH. split.
      * intros Hall. constructor; [reflexivity | exact Hall].
      * intros Hall. apply Forall_cons_1 in Hall as [_ Hall]. exact Hall.
Qed.

Lemma percentage_week (p n : nat) :
  (p <= n)%nat -> (0 < n <= 7)%nat ->
  PrimFloat.leb 0%float (percentage p n) = true /\
  PrimFloat.leb (percentage p n) 100%float = true /\
  PrimFloat.eqb (percentage p n) 100%float = Nat.eqb p n /\
  PrimFloat.eqb (percentage p n) 0%float = Nat.eqb p 0.
Proof.
  intros Hp Hn.
  do 8 (destruct n as [|n]; [try lia; do 8 (destruct p as [|p]; [try lia; repeat split|]); lia|]).
  lia.
Qed.

(** X4.  For an attendance array that passes the validator of the model
    (at most 7 days) and is not empty, [getAttendanceRate] lies between 0
    and 100, is 100 exactly when every day is present and 0 exactly when
    none is. *)
Theorem getAttendanceRate_bounds (a : ActivityTracker) (att : list bool) :
  attendance a = Some att -> att <> [] -> isValidAttendance (Some att) = None ->
  PrimFloat.leb 0%float (getAttendanceRate a) = true /\
  PrimFloat.leb (getAttendanceRate a) 100%float = true /\
  (PrimFloat.eqb (getAttendanceRate a) 100%float = true
   <-> Forall (fun day => day = true) att) /\
  (PrimFloat.eqb (getAttendanceRate a) 0%float = true
   <-> Forall (fun day => day = false) att).
Proof.
  intros Hatt Hne Hvalid.
  assert (Hlen : (0 < length att <= 7)%nat).
  { unfold isValidAttendance in Hvalid.
    destruct (Nat.ltb_spec 7 (length att)); [discriminate|].
    destruct att; [congruence | cbn [length] in *; lia]. }
  assert (Hrate : getAttendanceRate a = percentage (presentDays att) (length att)).
  { unfold getAttendanceRate. rewrite Hatt.
    destruct att as [|x att']; [congruence|]. cbn [length Nat.eqb].
    unfold percentage. rewrite filter_true_presentDays. reflexivity. }
  destruct (percentage_week (presentDays att) (length att) (presentDays_le att) Hlen)
    as (H0 & H100 & Hfull & Hnone).
  rewrite Hrate. split; [exact H0|]. split; [exact H100|]. split.
  - rewrite Hfull, Nat.eqb_eq. apply presentDays_all.
  - rewrite Hnone, Nat.eqb_eq. apply presentDays_none.
Qed.

Lemma getAttendanceRate_bounds_witness :
  PrimFloat.eqb
    (getAttendanceRate
       {| id := 1; allocationId := 10; facilitatorId := 1; weekNumber := 1;
          attendance := Some [true; true; true];
          formativeOneGrading := Done; formativeTwoGrading := Done;
          summativeGrading := Done; courseModeration := Done;
          intranetSync := Done; gradeBookStatus := Done;
          notes := None; submittedAt := None; createdAt := 0; updatedAt := 0 |})
    100%float = true.
Proof.
  apply (proj1 (proj2 (proj2
           (getAttendanceRate_bounds
              {| id := 1; allocationId := 10; facilitatorId := 1; weekNumber := 1;
                 attendance := Some [true; true; true];
                 formativeOneGrading := Done; formativeTwoGrading := Done;
                 summativeGrading := Done; courseModeration := Done;
                 intranetSync := Done; gradeBookStatus := Done;
                 notes := None; submittedAt := None; createdAt := 0; updatedAt := 0 |}
              [true; true; true] eq_refl ltac:(discriminate) eq_refl)))).
  repeat constructor.
Defined.

(** ** The deadline as time passes *)

Section DeadlineFacts.
Context `{Host}.

Import JSDate.

Lemma addDays_within (v t k d : Z) :
  offsetsWithin v -> addDays (Some t) k = Some d ->
  t + k * msPerDay - v <= d <= t + k * msPerDay + v.
Proof.
  intros Hv Hd. unfold addDays in Hd. apply TimeClip_Some in Hd as [-> _].
  unfold UTC, LocalTime.
  pose proof (Hv t (t + LocalTZA t true + k * msPerDay) true false). lia.
Qed.

Lemma deadline_within (v now weekNumber d : Z) :
  offsetsWithin v -> deadline_shifted_forward now weekNumber = Some d ->
  let k := (weekNumber - 1) * 7 + 9 - daysIntoWeek now in
  now + k * msPerDay - 2 * v <= d <= now + k * msPerDay + 2 * v.
Proof.
  intros Hv Hd. cbv zeta. unfold deadline_shifted_forward, weekStart_forward in Hd.
  destruct (addDays (Some now) _) as [ws|] eqn:Hws; [|discriminate].
  apply (addDays_within v) in Hws; [|exact Hv].
  apply (addDays_within v) in Hd; [|exact Hv]. lia.
Qed.

Lemma fixedOffset_within : fixedOffset -> offsetsWithin 0.
Proof. intros Hfix t t' b b'. rewrite (Hfix t t' b b'). lia. Qed.



(** X6.  For a week number of 1 or more the deadline lies at least three
    days after the clock reading it is computed from, less twice what the
    offsets of the host differ by (nothing without daylight saving, two
    hours with it), so [isOverdue] is false whenever its two clock readings
    are closer than that: a record of a valid week is never reported
    overdue, submitted or not. *)
Theorem isOverdue_valid_week (a : ActivityTracker) (w : World) (v : Z) :
  offsetsWithin v -> 1 <= weekNumber a ->
  wallClock (S (clockReads w)) <= wallClock (clockReads w) + 3 * msPerDay - 2 * v ->
  result (isOverdue a w) = Return false /\
  (forall d, result (getDeadline a w) = Return (Some d) ->
             wallClock (clockReads w) + 3 * msPerDay - 2 * v <= d).
Proof.
  intros Hv Hweek Hclock.
  assert (Hd : forall d, result (getDeadline a w) = Return (Some d) ->
                         wallClock (clockReads w) + 3 * msPerDay - 2 * v <= d).
  { intros d. rewrite getDeadline_run. cbn [result fst]. intros [= Hd].
    apply (deadline_within v) in Hd; [|exact Hv]. cbv zeta in Hd.
    pose proof (WeekDay_range (LocalTime (wallClock (clockReads w)))) as Hwd.
    fold (daysIntoWeek (wallClock (clockReads w))) in Hwd.
    unfold msPerDay in *. lia. }
  split; [|exact Hd].
  unfold isOverdue. destruct (submittedAt a); [reflexivity|].
  unfold newDate, mbind, M_bind, mret, M_ret.
  rewrite deadline_computation. cbn [result fst clockReads set_clockReads].
  f_equal. unfold date_gt.
  destruct (deadline_shifted_forward _ _) as [d|] eqn:E; [|reflexivity].
  apply Z.ltb_ge.
  specialize (Hd d). rewrite getDeadline_run in Hd. cbn [result fst] in Hd.
  rewrite E in Hd. specialize (Hd eq_refl). lia.
Qed.

End DeadlineFacts.


(** In Berlin, where the offsets differ by one hour, on 2025-10-22. *)
Lemma isOverdue_valid_week_witness :
  let h := Demo.berlin 1761127200000 in
  result (@isOverdue h (Demo.activity 2 10 1 2 None 1753800000000) Demo.world0)
  = Return false.
Proof.
  cbv zeta.
  apply (proj1 (@isOverdue_valid_week (Demo.berlin 1761127200000)
                  (Demo.activity 2 10 1 2 None 1753800000000) Demo.world0 3600000
                  ltac:(intros t t' b b'; cbn [LocalTZA Demo.berlin];
                        unfold Demo.berlinTZA;
                        destruct b, b';
                        repeat match goal with
                               | |- context [if ?c then _ else _] => destruct c
                               end; lia)
                  ltac:(vm_compute; discriminate) ltac:(vm_compute; discriminate))).
Defined.

(** ** Queries and statistics over the activity table *)

Section TableQueries.
Context `{Host}.

Lemma complianceLoop_run (l : list ActivityTracker) (c : Compliance) (w : World) :
  exists c',
    result (complianceLoop l c w) = Return c' /\
    submittedLate c' = submittedLate c /\
    submittedOnTime c' = submittedOnTime c + submittedCount l /\
    overdueLogs c <= overdueLogs c'
                  <= overdueLogs c + (Z.of_nat (length l) - submittedCount l).
Proof.
  revert c w. induction l as [|a l IH]; intros c w.
  - exists c. cbn. unfold submittedCount. cbn. repeat split; lia.
  - cbn [complianceLoop]. unfold mbind at 1, M_bind at 1.
    unfold complianceStep, submittedCount. rewrite filter_cons.
    destruct (submittedAt a) as [t|] eqn:Hs.
    + unfold mbind, M_bind. rewrite isOverdue_submitted by congruence.
      cbn [mret M_ret].
      destruct (IH {| submittedOnTime := submittedOnTime c + 1;
                      submittedLate := submittedLate c;
                      overdueLogs := overdueLogs c |} w)
        as (c' & Hres & Hlate & Hon & Hover).
      exists c'. split; [exact Hres|].
      destruct (decide (Some t <> None)) as [_|Hn]; [|exfalso; apply Hn; discriminate].
      unfold submittedCount in *. cbn [length submittedOnTime submittedLate overdueLogs] in *.
      repeat split; lia.
    + unfold mbind, M_bind.
      destruct (isOverdue a w) as [[late|e] w1] eqn:Hrun.
      2:{ exfalso. unfold isOverdue in Hrun. rewrite Hs in Hrun.
          unfold newDate, mbind, M_bind, mret, M_ret in Hrun. discriminate. }
      destruct (decide (@None Z <> None)) as [Hn|_]; [congruence|].
      destruct late; cbn [mret M_ret].
      * destruct (IH {| submittedOnTime := submittedOnTime c;
                        submittedLate := submittedLate c;
                        overdueLogs := overdueLogs c + 1 |} w1)
          as (c' & Hres & Hlate & Hon & Hover).
        exists c'. split; [exact Hres|].
        unfold submittedCount in *.
        cbn [length submittedOnTime submittedLate overdueLogs] in *.
        repeat split; lia.
      * destruct (IH c w1) as (c' & Hres & Hlate & Hon & Hover).
        exists c'. split; [exact Hres|].
        unfold submittedCount in *. cbn [length] in *.
        repeat split; lia.
Qed.

(** X7.  The compliance loop of the manager dashboard never counts a late
    submission: a submitted log is never overdue for [isOverdue], so
    [submittedLate] is 0 and [submittedOnTime] is the number of submitted
    logs, whatever their dates; [overdue] counts unsubmitted logs only. *)
Theorem submissionCompliance_never_late (allActivities : list ActivityTracker)
    (w : World) :
  exists c,
    result (submissionCompliance allActivities w) = Return c /\
    submittedLate c = 0 /\
    submittedOnTime c = submittedCount allActivities /\
    0 <= overdueLogs c
      <= Z.of_nat (length allActivities) - submittedCount allActivities.
Proof.
  unfold submissionCompliance.
  destruct (complianceLoop_run allActivities
              {| submittedOnTime := 0; submittedLate := 0; overdueLogs := 0 |} w)
    as (c & Hres & Hlate & Hon & Hover).
  exists c. cbn [submittedOnTime submittedLate overdueLogs] in *.
  repeat split; try assumption; lia.
Qed.

(** X8.  [findIncomplete] returns exactly the rows, in table order, for
    which [isFullyCompleted] is false. *)
Theorem findIncomplete_spec (w : World) :
  findIncomplete w
  = (Return (filter (fun r => isFullyCompleted r = false) (activity_trackers (db w))),
     w).
Proof.
  unfold findIncomplete, get. f_equal. f_equal.
  apply filter_bool_Prop. intros r.
  unfold isFullyCompleted, getOverallProgress. cbn [completed total length].
  destruct (formativeOneGrading r), (formativeTwoGrading r), (summativeGrading r),
    (courseModeration r), (intranetSync r), (gradeBookStatus r);
    cbn; split; congruence.
Qed.

End TableQueries.

Section Statistics.
Context `{Host}.

Lemma count_run (cond : ActivityTracker -> bool) (w : World) :
  count cond w
  = (Return (Z.of_nat (length (List.filter cond (activity_trackers (db w))))), w).
Proof. reflexivity. Qed.

Lemma filter_always {A : Type} (l : list A) : List.filter (fun _ => true) l = l.
Proof. induction l as [|x l IH]; [reflexivity | cbn; rewrite IH; reflexivity]. Qed.

Lemma filter_split_length {A : Type} (f : A -> bool) (l : list A) :
  (length (List.filter f l) + length (List.filter (fun x => negb (f x)) l))%nat
  = length l.
Proof.
  induction l as [|x l IH]; [reflexivity|].
  cbn. destruct (f x); cbn; lia.
Qed.

Lemma filter_weaker_length {A : Type} (f g : A -> bool) (l : list A) :
  (forall x, f x = true -> g x = true) ->
  (length (List.filter f l) <= length (List.filter g l))%nat.
Proof.
  intros Hfg. induction l as [|x l IH]; [reflexivity|].
  cbn. destruct (f x) eqn:Ef.
  - rewrite (Hfg x Ef). cbn. lia.
  - destruct (g x); cbn; lia.
Qed.

Lemma status_split_length (field : string) (l : list ActivityTracker) :
  Z.of_nat (length (List.filter (fun r => TaskStatus_eqb (task_get r field) Done) l))
  + Z.of_nat (length (List.filter (fun r => TaskStatus_eqb (task_get r field) Pending) l))
  + Z.of_nat (length (List.filter (fun r => TaskStatus_eqb (task_get r field) NotStarted) l))
  = Z.of_nat (length l).
Proof.
  induction l as [|r l IH]; [reflexivity|].
  cbn [List.filter]. destruct (task_get r field); cbn [TaskStatus_eqb length]; lia.
Qed.

(** X9.  [getStatistics] reads the clock once and nothing else changes;
    in its result submitted + pending = total, overdue is at most pending,
    each of the six task entries has done + pending + notStarted = total,
    and an empty table gives a submission rate of 0 instead of dividing
    by zero. *)
Theorem getStatistics_invariants (w : World) :
  exists s,
    getStatistics w = (Return s, set_clockReads (S (clockReads w)) w) /\
    stats_total s = Z.of_nat (length (activity_trackers (db w))) /\
    stats_submitted s + stats_pending s = stats_total s /\
    0 <= stats_submitted s /\
    0 <= stats_overdue s <= stats_pending s /\
    map fst (stats_taskStats s) = validTasks /\
    Forall (fun e => stat_done (snd e) + stat_pending (snd e) + stat_notStarted (snd e)
                     = stats_total s)
           (stats_taskStats s) /\
    (stats_total s = 0 -> stats_submissionRate s = 0%float).
Proof.
  eexists. split.
  - unfold getStatistics. unfold mbind at 1, M_bind at 1. rewrite count_run.
    unfold mbind at 1, M_bind at 1. rewrite count_run.
    unfold mbind at 1, M_bind at 1.
    unfold findOverdue at 1, newDate, get. unfold mbind at 1, M_bind at 1.
    cbn [mapM validTasks]. unfold mbind, M_bind. rewrite !count_run.
    cbn [mret M_ret]. reflexivity.
  - cbn [stats_total stats_submitted stats_pending stats_overdue stats_taskStats
         stats_submissionRate db set_clockReads map fst snd].
    set (l := activity_trackers (db w)).
    rewrite filter_always. split; [reflexivity|].
    split; [lia|]. split; [lia|]. split.
    + split; [lia|].
      pose proof (filter_split_length
                    (fun r => match submittedAt r with Some _ => true | None => false end)
                    l) as Hsplit.
      match goal with
      | |- Z.of_nat (length (List.filter ?f l)) <= _ =>
          pose proof (filter_weaker_length f
                        (fun r => negb match submittedAt r with
                                       | Some _ => true | None => false end) l) as Hle
      end.
      lapply Hle;
        [intros Hle'
        |intros r; cbv beta; destruct (submittedAt r); [discriminate | reflexivity]].
      cbv beta in *. lia.
    + split; [reflexivity|]. split.
      * repeat constructor; cbn [snd stat_done stat_pending stat_notStarted];
          apply status_split_length.
      * intros H0. destruct (Z.ltb_spec 0 (Z.of_nat (length l))); [lia | reflexivity].
Qed.

End Statistics.

(** ** Filtered and ordered queries *)





Section FilteredQueries.
Context `{Host}.



End FilteredQueries.


(** ** The submit and the delete route *)

Lemma find_replaced (a row : ActivityTracker) (l : list ActivityTracker) :
  id row = id a ->
  List.find (fun r => id r =? id a) l = Some a ->
  List.find (fun r => id r =? id a)
            (map (fun r => if id r =? id a then row else r) l) = Some row.
Proof.
  intros Hid. induction l as [|x l IH]; [discriminate|].
  cbn [List.find map]. destruct (id x =? id a) eqn:Ex.
  - intros _. rewrite Hid, Z.eqb_refl. reflexivity.
  - rewrite Ex. exact IH.
Qed.

Lemma find_id (k : Z) (l : list ActivityTracker) (a : ActivityTracker) :
  List.find (fun r => id r =? k) l = Some a -> id a = k /\ In a l.
Proof.
  intros Hf. apply find_some in Hf as [Hin Hk]. apply Z.eqb_eq in Hk. auto.
Qed.

Lemma find_removed (k : Z) (l : list ActivityTracker) :
  List.find (fun r => id r =? k) (List.filter (fun r => negb (id r =? k)) l) = None.
Proof.
  induction l as [|x l IH]; [reflexivity|].
  cbn [List.filter]. destruct (id x =? k) eqn:Ex; cbn [negb]; [exact IH|].
  cbn [List.find]. rewrite Ex. exact IH.
Qed.

Lemma find_kept (k k' : Z) (l : list ActivityTracker) (r : ActivityTracker) :
  List.find (fun r => id r =? k') l = Some r -> id r <> k ->
  List.find (fun r => id r =? k') (List.filter (fun r => negb (id r =? k)) l) = Some r.
Proof.
  induction l as [|x l IH]; [discriminate|].
  cbn [List.find List.filter]. destruct (id x =? k') eqn:Ex.
  - intros [= ->] Hne. apply Z.eqb_neq in Hne. rewrite Hne. cbn [negb List.find].
    rewrite Ex. reflexivity.
  - intros Hf Hne. destruct (id x =? k); cbn [negb]; [auto|].
    cbn [List.find]. rewrite Ex. auto.
Qed.

Lemma authorize_mayAccess (req : Request) (a : ActivityTracker) :
  mayAccess req a -> authorize [facilitator; manager] req = None.
Proof.
  unfold authorize. intros [Hm | [Hf _]]; [rewrite Hm | rewrite Hf]; reflexivity.
Qed.

Lemma notOwner_mayAccess (req : Request) (a : ActivityTracker) (w : World) :
  mayAccess req a -> notOwner req a w = (Return false, w).
Proof.
  unfold notOwner. intros [Hm | [Hf Hp]].
  - rewrite Hm. reflexivity.
  - rewrite Hf, Hp. cbn. rewrite Z.eqb_refl. reflexivity.
Qed.

Lemma findByPk_found (pk : option Z) (w : World) (a : ActivityTracker) :
  result (findByPk pk w) = Return (Some a) ->
  pk = Some (id a) /\
  List.find (fun r => id r =? id a) (activity_trackers (db w)) = Some a.
Proof.
  unfold findByPk, result. destruct pk as [k|]; cbn [fst]; [|discriminate].
  intros [= Hf]. destruct (find_id _ _ _ Hf) as [<- _]. auto.
Qed.

Section Routes.
Context `{Host}.

(** The run of a first submission by a requester who passes the access
    check. *)
Lemma submitRoute_run (req : Request) (w : World) (a : ActivityTracker) :
  result (findByPk (params_id req) w) = Return (Some a) ->
  submittedAt a = None -> mayAccess req a ->
  let row :=
    storedRow (set_updatedAt (wallClock (S (clockReads w)))
                 (set_submittedAt (Some (wallClock (clockReads w))) a)) in
  let w' :=
    set_db (set_activity_trackers
              (map (fun r => if id r =? id a then row else r) (activity_trackers (db w)))
              (db w))
      (set_clockReads (S (S (clockReads w))) w) in
  submitRoute req w
  = (Return {| res_code := 200; res_status := "success";
               res_message := "Activity log submitted successfully";
               res_data := Some row |}, w') /\
  findByPk (params_id req) w' = (Return (Some row), w').
Proof.
  intros Hfind Hsub Hacc. cbv zeta.
  destruct (findByPk_found _ _ _ Hfind) as [Hpk Hf].
  set (row := storedRow (set_updatedAt (wallClock (S (clockReads w)))
                           (set_submittedAt (Some (wallClock (clockReads w))) a))).
  assert (Hre : forall w0,
             activity_trackers (db w0)
             = map (fun r => if id r =? id a then row else r) (activity_trackers (db w)) ->
             findByPk (params_id req) w0 = (Return (Some row), w0)).
  { intros w0 Hw0. rewrite Hpk. unfold findByPk. rewrite Hw0.
    rewrite (find_replaced a row _ eq_refl Hf). reflexivity. }
  split; [|apply Hre; reflexivity].
  unfold submitRoute. rewrite (authorize_mayAccess req a Hacc).
  unfold submitHandler, mbind, M_bind.
  rewrite (findByPk_result _ _ _ Hfind).
  rewrite (notOwner_mayAccess req a w Hacc), Hsub.
  rewrite submit_run. cbv zeta. fold row.
  rewrite isOverdue_submitted by discriminate.
  cbv beta iota. unfold mret, M_ret. cbv beta iota.
  rewrite Hre by reflexivity. reflexivity.
Qed.

(** X12.  A first submission by a requester who passes the access check
    succeeds: the answer is the 200 success with the row as stored, the
    row has [submittedAt] set to the first reading of the clock at the
    precision of the database, its tasks and attendance are as they were,
    every row of another id is kept as it is, the clock has been read
    twice and the queues and the notification store are untouched. *)
Theorem submitRoute_submits (req : Request) (w : World) (a : ActivityTracker) :
  result (findByPk (params_id req) w) = Return (Some a) ->
  submittedAt a = None -> mayAccess req a ->
  let w' := world (submitRoute req w) in
  exists row,
    result (submitRoute req w)
    = Return {| res_code := 200; res_status := "success";
                res_message := "Activity log submitted successfully";
                res_data := Some row |} /\
    findByPk (params_id req) w' = (Return (Some row), w') /\
    submittedAt row = Some (sqlDate (wallClock (clockReads w))) /\
    id row = id a /\ taskFields row = taskFields a /\ attendance row = attendance a /\
    activity_trackers (db w')
    = map (fun r => if id r =? id a then row else r) (activity_trackers (db w)) /\
    clockReads w' = S (S (clockReads w)) /\
    emailQueue w' = emailQueue w /\ alertQueue w' = alertQueue w /\
    redis w' = redis w /\ mailsSent w' = mailsSent w.
Proof.
  intros Hfind Hsub Hacc. cbv zeta.
  destruct (submitRoute_run req w a Hfind Hsub Hacc) as [Hrun Hre].
  rewrite Hrun. cbn [result world fst snd].
  eexists. split; [reflexivity|]. split; [exact Hre|].
  repeat split; reflexivity.
Qed.

(** X13.  Whatever the request, the submit route either answers 200 or
    leaves the world exactly as it was: a student gets the 403 of
    [authorize]; a key that finds no row gets 404; a key that is not a
    number makes the query fail; the only other exception is the TypeError
    of a facilitator without profile; and every answer other than 200 is a
    400, 403 or 404 without data. *)
Theorem submitRoute_refusals (req : Request) (w : World) :
  (forall r, result (submitRoute req w) = Return r -> res_code r <> 200 ->
             world (submitRoute req w) = w /\ res_data r = None /\
             In (res_code r) [400; 403; 404]) /\
  (forall e, result (submitRoute req w) = Throw e ->
             world (submitRoute req w) = w /\
             (e = DatabaseError /\ params_id req = None \/
              e = TypeError /\ user_role req = facilitator /\
              facilitatorProfile req = None)) /\
  (user_role req = student -> submitRoute req w = (Return roleDenied, w)) /\
  (user_role req <> student -> result (findByPk (params_id req) w) = Return None ->
   exists r, submitRoute req w = (Return r, w) /\ res_code r = 404) /\
  (user_role req <> student -> params_id req = None ->
   submitRoute req w = (Throw DatabaseError, w)).
Proof.
  unfold submitRoute, authorize.
  destruct (user_role req) eqn:Hrole; cbn [existsb Role_eqb orb].
  3: { unfold mret, M_ret. cbn [result world fst snd].
       split; [intros r [= <-] _; cbn; tauto|]. split; [intros e [=]|].
       split; [reflexivity|]. split; congruence. }
  all: unfold submitHandler, mbind, M_bind, notOwner, findByPk;
    destruct (params_id req) as [k|] eqn:Hk;
    rewrite ?Hrole; cbn [Role_eqb result world fst snd];
    (split; [|split; [|split; [discriminate|split]]]).
  all: try (destruct (List.find _ _) as [a|] eqn:Hfound).
  all: try (destruct (facilitatorProfile req) as [p|] eqn:Hp;
            [destruct (facilitatorId a =? p); cbn [negb]|]).
  all: unfold throw, mret, M_ret; cbv beta iota.
  all: try (destruct (submittedAt a) eqn:Hs;
            [|cbv beta; rewrite submit_run; cbv beta iota zeta;
              rewrite isOverdue_submitted by discriminate]).
  all: unfold throw, mret, M_ret; cbv beta iota;
    cbn [result world fst snd].
  all: try (intros r [= <-]; cbn [res_code res_data]; intros Hne;
            first [ congruence | repeat split; cbn; tauto ]).
  all: try (intros e [=]; fail).
  all: try (intros e [= <-]; split; [reflexivity|]; tauto).
  all: try (intros _ [=]; fail).
  all: try (intros _ _; eexists; split; reflexivity).
  all: try (intros _ _; reflexivity).
Qed.

(** X14.  A delete request by a manager, or by the facilitator who owns a
    log that is not submitted, removes the row: the answer is the 200
    success, the table is the old one without the rows of that id, the key
    finds nothing afterwards, every other key finds what it found before,
    and nothing but the table changes. *)
Theorem deleteRoute_deletes (req : Request) (w : World) (a : ActivityTracker) :
  result (findByPk (params_id req) w) = Return (Some a) ->
  mayAccess req a ->
  (user_role req = facilitator -> submittedAt a = None) ->
  let w' := world (deleteRoute req w) in
  result (deleteRoute req w)
  = Return {| res_code := 200; res_status := "success";
              res_message := "Activity log deleted successfully";
              res_data := None |} /\
  activity_trackers (db w')
  = filter (fun r => id r <> id a) (activity_trackers (db w)) /\
  findByPk (params_id req) w' = (Return None, w') /\
  (forall k r, findByPk (Some k) w = (Return (Some r), w) -> id r <> id a ->
               findByPk (Some k) w' = (Return (Some r), w')) /\
  clockReads w' = clockReads w /\
  emailQueue w' = emailQueue w /\ alertQueue w' = alertQueue w /\
  redis w' = redis w.
Proof.
  intros Hfind Hacc Hguard. cbv zeta.
  destruct (findByPk_found _ _ _ Hfind) as [Hpk Hf].
  unfold deleteRoute. rewrite (authorize_mayAccess req a Hacc).
  unfold deleteHandler, mbind, M_bind.
  rewrite (findByPk_result _ _ _ Hfind).
  rewrite (notOwner_mayAccess req a w Hacc).
  assert (Hgo : (match submittedAt a with Some _ => true | None => false end)
                && Role_eqb (user_role req) facilitator = false).
  { destruct (user_role req) eqn:Hrole; cbn [Role_eqb]; rewrite ?andb_false_r;
      try reflexivity.
    rewrite Hguard by reflexivity. reflexivity. }
  rewrite Hgo. unfold destroy, modify, mret, M_ret.
  cbn [result world fst snd db set_db activity_trackers set_activity_trackers
       clockReads emailQueue alertQueue redis].
  split; [reflexivity|]. split.
  { apply filter_bool_Prop. intros r. rewrite negb_true_iff. apply Z.eqb_neq. }
  split.
  { rewrite Hpk. unfold findByPk.
    cbn [db set_db activity_trackers set_activity_trackers].
    rewrite find_removed. reflexivity. }
  split; [|repeat split; reflexivity].
  intros k r Hk Hne. unfold findByPk in Hk |- *.
  cbn [db set_db activity_trackers set_activity_trackers].
  injection Hk as Hk. rewrite (find_kept (id a) k _ r Hk Hne). reflexivity.
Qed.

(** X15.  Whatever the request, the delete route either answers 200 or
    leaves the world exactly as it was; and a facilitator never deletes a
    submitted log: the world is unchanged, the answer is the 400 refusal
    for the owner and the 403 of the access check for anyone else. *)
Theorem deleteRoute_refusals (req : Request) (w : World) :
  (forall r, result (deleteRoute req w) = Return r -> res_code r <> 200 ->
             world (deleteRoute req w) = w) /\
  (forall e, result (deleteRoute req w) = Throw e -> world (deleteRoute req w) = w) /\
  (forall a, result (findByPk (params_id req) w) = Return (Some a) ->
             user_role req = facilitator -> submittedAt a <> None ->
             world (deleteRoute req w) = w /\
             (forall p, facilitatorProfile req = Some p ->
                exists r, result (deleteRoute req w) = Return r /\
                          res_code r = (if facilitatorId a =? p then 400 else 403))).
Proof.
  unfold deleteRoute, authorize.
  destruct (user_role req) eqn:Hrole; cbn [existsb Role_eqb orb].
  3: { unfold mret, M_ret. cbn [result world fst snd].
       split; [reflexivity|]. split; [reflexivity | discriminate]. }
  all: unfold deleteHandler, mbind, M_bind, notOwner, findByPk;
    destruct (params_id req) as [k|] eqn:Hk;
    rewrite ?Hrole; cbn [Role_eqb result world fst snd];
    (split; [|split]).
  all: try (destruct (List.find _ _) as [a|] eqn:Hfound).
  all: try (destruct (facilitatorProfile req) as [p|] eqn:Hp;
            [destruct (facilitatorId a =? p) eqn:Hown; cbn [negb]|]).
  all: unfold throw, mret, M_ret; cbv beta iota.
  all: try (destruct (submittedAt a) eqn:Hs; cbn [andb]).
  all: unfold destroy, modify, mret, M_ret; cbv beta iota;
    cbn [result world fst snd].
  all: try reflexivity.
  all: try (intros r [= <-]; cbn [res_code]; congruence).
  all: try discriminate.
  all: try (intros a' [=]; fail).
  all: try (intros a' [= <-] _ Hne; first [ congruence | split; [reflexivity|] ];
            intros p' [= <-]; rewrite ?Hown; eexists; split; reflexivity).
  all: try (intros a' [= <-] _ Hne; split; [reflexivity|]; intros p' [=]).
Qed.

(** X16.  Once a facilitator has submitted their log, the same requests
    are refused and change nothing: a second submission gets the 400 of
    the duplicate check, so the first timestamp stays, and a delete gets
    the 400 of the submitted-log guard. *)
Theorem submitted_log_is_final (req : Request) (w : World) (a : ActivityTracker) :
  result (findByPk (params_id req) w) = Return (Some a) ->
  submittedAt a = None ->
  user_role req = facilitator -> facilitatorProfile req = Some (facilitatorId a) ->
  let w1 := world (submitRoute req w) in
  submitRoute req w1 = (Return alreadySubmitted, w1) /\
  deleteRoute req w1
  = (Return {| res_code := 400; res_status := "error";
               res_message := "Cannot delete submitted activity log";
               res_data := None |}, w1) /\
  exists a1, findByPk (params_id req) w1 = (Return (Some a1), w1) /\
             submittedAt a1 = Some (sqlDate (wallClock (clockReads w))).
Proof.
  intros Hfind Hsub Hrole Hprof. cbv zeta.
  assert (Hacc : mayAccess req a) by (right; split; assumption).
  destruct (submitRoute_run req w a Hfind Hsub Hacc) as (Hrun & Hf1).
  rewrite Hrun. cbn [world snd].
  match type of Hf1 with
  | findByPk _ ?w0 = (Return (Some ?a0), _) => set (w1 := w0) in *; set (a1 := a0) in *
  end.
  assert (Hacc1 : mayAccess req a1) by (right; split; assumption).
  split; [|split].
  - unfold submitRoute. rewrite (authorize_mayAccess req a Hacc).
    unfold submitHandler, mbind, M_bind. rewrite Hf1.
    rewrite (notOwner_mayAccess req a1 w1 Hacc1). reflexivity.
  - unfold deleteRoute. rewrite (authorize_mayAccess req a Hacc).
    unfold deleteHandler, mbind, M_bind. rewrite Hf1.
    rewrite (notOwner_mayAccess req a1 w1 Hacc1). rewrite Hrole. reflexivity.
  - exists a1. split; [exact Hf1 | reflexivity].
Qed.

End Routes.

(** Facilitator 1 submits log 2 of the example store, which is theirs and
    not yet submitted. *)
Lemma submitRoute_submits_witness :
  let h := Demo.host Demo.refusing in
  let req := {| params_id := Some 2; user_role := facilitator;
                facilitatorProfile := Some 1 |} in
  exists row,
    result (@submitRoute h req Demo.world0)
    = Return {| res_code := 200; res_status := "success";
                res_message := "Activity log submitted successfully";
                res_data := Some row |} /\
    submittedAt row = Some 1753869600000.
Proof.
  cbv zeta.
  destruct (@submitRoute_submits (Demo.host Demo.refusing)
              {| params_id := Some 2; user_role := facilitator;
                 facilitatorProfile := Some 1 |}
              Demo.world0 (Demo.activity 2 10 1 2 None 1753800000000)
              eq_refl eq_refl ltac:(right; split; reflexivity))
    as (row & Hres & _ & Hs & _).
  exists row. split; [exact Hres | exact Hs].
Defined.

(** A facilitator asks to submit a log whose key is not a number. *)
Lemma submitRoute_refusals_witness :
  let h := Demo.host Demo.refusing in
  let req := {| params_id := None; user_role := facilitator;
                facilitatorProfile := Some 1 |} in
  @submitRoute h req Demo.world0 = (Throw DatabaseError, Demo.world0).
Proof.
  cbv zeta.
  exact (proj2 (proj2 (proj2 (proj2
           (@submitRoute_refusals (Demo.host Demo.refusing)
              {| params_id := None; user_role := facilitator;
                 facilitatorProfile := Some 1 |}
              Demo.world0))))
               ltac:(discriminate) eq_refl).
Defined.

(** A manager deletes log 1 of the example store, which is submitted. *)
Lemma deleteRoute_deletes_witness :
  let req := {| params_id := Some 1; user_role := manager;
                facilitatorProfile := None |} in
  let w' := world (deleteRoute req Demo.world0) in
  map id (activity_trackers (db w')) = [2; 3] /\
  findByPk (Some 1) w' = (Return None, w').
Proof.
  cbv zeta.
  destruct (deleteRoute_deletes
              {| params_id := Some 1; user_role := manager;
                 facilitatorProfile := None |}
              Demo.world0 (Demo.activity 1 10 1 1 (Some 1753000000000) 1752000000000)
              eq_refl ltac:(left; reflexivity) ltac:(discriminate))
    as (_ & Hrows & Hgone & _).
  split; [rewrite Hrows; reflexivity | exact Hgone].
Defined.

(** Facilitator 1 asks to delete log 1, which is theirs and submitted. *)
Lemma deleteRoute_refusals_witness :
  let req := {| params_id := Some 1; user_role := facilitator;
                facilitatorProfile := Some 1 |} in
  world (deleteRoute req Demo.world0) = Demo.world0 /\
  exists r, result (deleteRoute req Demo.world0) = Return r /\ res_code r = 400.
Proof.
  cbv zeta.
  destruct (proj2 (proj2 (deleteRoute_refusals
                            {| params_id := Some 1; user_role := facilitator;
                               facilitatorProfile := Some 1 |}
                            Demo.world0))
              (Demo.activity 1 10 1 1 (Some 1753000000000) 1752000000000)
              eq_refl eq_refl ltac:(discriminate))
    as (Hw & Hcode).
  split; [exact Hw | exact (Hcode 1 eq_refl)].
Defined.

(** Facilitator 1 submits log 2 and then asks again, and asks to delete. *)
Lemma submitted_log_is_final_witness :
  let h := Demo.host Demo.refusing in
  let req := {| params_id := Some 2; user_role := facilitator;
                facilitatorProfile := Some 1 |} in
  let w1 := world (@submitRoute h req Demo.world0) in
  @submitRoute h req w1 = (Return alreadySubmitted, w1).
Proof.
  cbv zeta.
  exact (proj1 (@submitted_log_is_final (Demo.host Demo.refusing)
                  {| params_id := Some 2; user_role := facilitator;
                     facilitatorProfile := Some 1 |}
                  Demo.world0 (Demo.activity 2 10 1 2 None 1753800000000)
                  eq_refl eq_refl eq_refl eq_refl)).
Defined.

(** ** The notification log: edge cases *)

Lemma redis_range_tail (l : list string) (n : Z) :
  n <= 0 -> redis_range l 0 (n - 1) = take (Z.to_nat (Z.of_nat (length l) + n)) l.
Proof.
  intros Hn. unfold redis_range. cbv zeta.
  change (0 <? 0) with false. cbv iota.
  destruct (Z.ltb_spec (n - 1) 0) as [_|]; [|lia].
  change (0 <? 0) with false. cbv iota.
  destruct (Z.ltb_spec (Z.of_nat (length l) + (n - 1)) 0) as [Hneg|Hpos]; cbn [orb].
  - replace (Z.to_nat (Z.of_nat (length l) + n)) with 0%nat by lia. reflexivity.
  - destruct (Z.leb_spec (Z.of_nat (length l)) 0) as [Hlen|Hlen]; [lia|].
    destruct (Z.leb_spec (Z.of_nat (length l)) (Z.of_nat (length l) + (n - 1)));
      [lia|].
    change (Z.to_nat 0) with 0%nat. rewrite drop_0. f_equal. lia.
Qed.

Section NotificationEdges.
Context `{Host}.

(** X17.  [logNotification] never throws, whatever Redis holds: the entry
    is stored under its own key with a life of 604800 seconds (7 days), no
    other key but the recent list changes, the recent list, when it is a
    list, starts with the entry and has at most 100 elements however long
    it was, and when the key of the list holds a string the list is left
    as it is and the error is swallowed. *)
Theorem logNotification_never_throws (o : JsObject) (w : World) :
  let w' := world (logNotification o w) in
  result (logNotification o w) = Return tt /\
  redis w' !! logKeyOf w = Some (RString (entryOf o w) 604800) /\
  (forall k, k <> logKeyOf w -> k <> "recent_notifications" ->
             redis w' !! k = redis w !! k) /\
  (forall l, recentList w = Some l ->
             recentList w' = Some (take 100 (entryOf o w :: l))) /\
  (forall l', recentList w' = Some l' ->
              (length l' <= 100)%nat /\ head l' = Some (entryOf o w)) /\
  (recentList w = None ->
   redis w' = <[logKeyOf w := RString (entryOf o w) 604800]> (redis w)).
Proof.
  cbv zeta.
  assert (Hne : logKeyOf w <> "recent_notifications") by apply logKey_not_recent.
  unfold logNotification, try_catch, mbind, M_bind, newDate, random, setEx, modify,
    lPush, lTrim.
  cbn [redis set_redis set_clockReads set_randomDraws clockReads randomDraws].
  fold (logKeyOf w). fold (stamped o (wallClock (S (clockReads w)))).
  fold (entryOf o w).
  rewrite lookup_insert_ne by exact Hne.
  unfold recentList.
  destruct (redis w !! "recent_notifications") as [[v t|l0]|] eqn:Hr;
    cbn [redis set_redis]; rewrite ?lookup_insert_eq;
    rewrite ?redis_range_head by lia; change (Z.to_nat (99 + 1)) with 100%nat;
    cbn [take]; unfold mret, M_ret, result, world; cbn [fst snd redis set_redis].
  - rewrite lookup_insert_eq, lookup_insert_ne, Hr by exact Hne.
    split; [reflexivity|]. split; [reflexivity|].
    split; [intros k Hk _; apply lookup_insert_ne; congruence|].
    split; [discriminate|]. split; [discriminate|]. reflexivity.
  - split; [reflexivity|].
    split; [rewrite !lookup_insert_ne by congruence; apply lookup_insert_eq|].
    split; [intros k Hk Hk'; rewrite !lookup_insert_ne by congruence; reflexivity|].
    split; [intros l [= <-]; rewrite lookup_insert_eq; reflexivity|].
    split; [|discriminate].
    intros l'. rewrite lookup_insert_eq. intros [= <-]. cbn [length head].
    rewrite length_take. split; [lia | reflexivity].
  - split; [reflexivity|].
    split; [rewrite !lookup_insert_ne by congruence; apply lookup_insert_eq|].
    split; [intros k Hk Hk'; rewrite !lookup_insert_ne by congruence; reflexivity|].
    split; [intros l [= <-]; rewrite lookup_insert_eq, take_nil; reflexivity|].
    split; [|discriminate].
    intros l'. rewrite lookup_insert_eq. intros [= <-]. cbn [length head].
    split; [lia | reflexivity].
Qed.

(** X18.  [getRecentNotifications] never throws and changes nothing.  A
    missing limit is 20.  A limit n <= 0 does not mean no entry: index
    n - 1 counts from the tail, so 0 returns the whole list and -k all but
    the last k entries.  One stored entry that does not parse among those
    selected, or a key that holds a string, gives the empty list. *)
Theorem getRecentNotifications_edges (w : World) :
  (forall limit, exists ds, getRecentNotifications limit w = (Return ds, w)) /\
  getRecentNotifications None w = getRecentNotifications (Some 20) w /\
  (forall l ds n, recentList w = Some l -> mapM JSON_parse l = Some ds -> n <= 0 ->
     getRecentNotifications (Some n) w
     = (Return (take (Z.to_nat (Z.of_nat (length l) + n)) ds), w)) /\
  (forall l n, recentList w = Some l ->
     mapM JSON_parse (redis_range l 0 (n - 1)) = None ->
     getRecentNotifications (Some n) w = (Return [], w)) /\
  (forall limit, recentList w = None ->
     getRecentNotifications limit w = (Return [], w)).
Proof.
  split; [|split; [reflexivity|split; [|split]]].
  - intros limit.
    unfold getRecentNotifications, try_catch, mbind, M_bind, lRange.
    destruct (redis w !! "recent_notifications") as [[v t|l0]|].
    + eexists. reflexivity.
    + destruct (mapM JSON_parse _); eexists; reflexivity.
    + eexists. reflexivity.
  - intros l ds n Hl Hds Hn.
    assert (Hparse : mapM JSON_parse (redis_range l 0 (n - 1))
                     = Some (take (Z.to_nat (Z.of_nat (length l) + n)) ds)).
    { rewrite redis_range_tail by exact Hn.
      apply mapM_Some. apply Forall2_take. apply mapM_Some. exact Hds. }
    assert (Hlen : length ds = length l).
    { apply mapM_Some in Hds. symmetry. eapply Forall2_length. exact Hds. }
    unfold getRecentNotifications, try_catch, mbind, M_bind, lRange. cbn [default].
    unfold recentList in Hl.
    destruct (redis w !! "recent_notifications") as [[v t|l']|];
      [discriminate| |]; injection Hl as <-; change (Datatypes.id n) with n.
    + rewrite Hparse. reflexivity.
    + cbn in Hds. injection Hds as <-. rewrite take_nil. reflexivity.
  - intros l n Hl Hbad.
    unfold getRecentNotifications, try_catch, mbind, M_bind, lRange. cbn [default].
    unfold recentList in Hl.
    destruct (redis w !! "recent_notifications") as [[v t|l']|];
      [discriminate| |]; injection Hl as <-; change (Datatypes.id n) with n.
    + rewrite Hbad. reflexivity.
    + exfalso. revert Hbad. unfold redis_range. cbn [length].
      destruct (_ || _); cbn; [discriminate|].
      rewrite drop_nil, take_nil. discriminate.
  - intros limit Hl.
    unfold getRecentNotifications, try_catch, mbind, M_bind, lRange.
    unfold recentList in Hl.
    destruct (redis w !! "recent_notifications") as [[v t|l']|];
      [reflexivity|discriminate|discriminate].
Qed.

(** X19.  An alert of a type the processor does not know sends nothing:
    no email job is queued for any manager, yet the job succeeds and the
    log gets its 'queued' entry all the same. *)
Theorem setupAlertProcessor_unknown_type (job : Job AlertJob) (w : World) :
  ~ In (alertType (jobData job)) recognizedTypes ->
  let type := alertType (jobData job) in
  let w' := world (setupAlertProcessor job w) in
  result (setupAlertProcessor job w) = Return {| success := true; messageId := None |} /\
  emailQueue w' = emailQueue w /\ alertQueue w' = alertQueue w /\
  mailsSent w' = mailsSent w /\
  (forall l, recentList w = Some l ->
     recentList w'
     = Some (take 100 (entryOf (queuedEntry type (alertData (jobData job))) w :: l))).
Proof.
  intros Hunknown. cbv zeta.
  assert (Hmsg : alertMessage (alertType (jobData job)) (alertData (jobData job)) = None).
  { unfold alertMessage.
    destruct (String.eqb_spec (alertType (jobData job)) "overdue-submission") as [E|_];
      [exfalso; apply Hunknown; rewrite E; cbn; tauto|].
    destruct (String.eqb_spec (alertType (jobData job)) "late-submission") as [E|_];
      [exfalso; apply Hunknown; rewrite E; cbn; tauto|].
    destruct (String.eqb_spec (alertType (jobData job)) "critical-deadline") as [E|_];
      [exfalso; apply Hunknown; rewrite E; cbn; tauto|].
    reflexivity. }
  unfold setupAlertProcessor, try_catch, mbind, M_bind.
  unfold Manager_findAll, get. rewrite Hmsg.
  assert (Hloop : forall (ms : list (Manager * User)) w0,
             for_of ms (fun _ : Manager * User => mret tt) w0 = (Return tt, w0)).
  { induction ms as [|m ms IH]; intros w0; [reflexivity|].
    cbn [for_of]. unfold mbind, M_bind, mret, M_ret at 1. apply IH. }
  rewrite Hloop.
  fold (queuedEntry (alertType (jobData job)) (alertData (jobData job))).
  pose proof (logNotification_frame
                (queuedEntry (alertType (jobData job)) (alertData (jobData job))) w)
    as (Hres & Hq & Ha & _ & Hm).
  pose proof (fun l => logNotification_run
                (queuedEntry (alertType (jobData job)) (alertData (jobData job))) w l)
    as Hrun.
  destruct (logNotification _ w) as [r w2]. cbn [result world fst snd] in *.
  subst r. unfold mret, M_ret. cbn [fst snd].
  repeat split; try assumption.
  intros l Hl. destruct (Hrun l Hl) as (_ & Hrec & _). exact Hrec.
Qed.

End NotificationEdges.

(** An entry logged while the key of the recent list holds a string. *)
Lemma logNotification_never_throws_witness :
  let h := Demo.host Demo.refusing in
  let o : JsObject := {[ "subject" := JsStr "first" ]} in
  let w := set_redis {[ "recent_notifications" := RString "taken" 60 ]} Demo.world0 in
  result (@logNotification h o w) = Return tt /\
  redis (world (@logNotification h o w))
  = <[@logKeyOf h w := RString (@entryOf h o w) 604800]> (redis w).
Proof.
  cbv zeta.
  pose proof (@logNotification_never_throws (Demo.host Demo.refusing)
                {[ "subject" := JsStr "first" ]}
                (set_redis {[ "recent_notifications" := RString "taken" 60 ]}
                           Demo.world0))
    as (Hres & _ & _ & _ & _ & Hkept).
  split; [exact Hres | exact (Hkept eq_refl)].
Defined.

(** Two entries logged into the empty store of the example world, read
    back with a limit of 0. *)
Lemma getRecentNotifications_edges_witness :
  let h := Demo.host Demo.refusing in
  let first : JsObject := {[ "subject" := JsStr "first" ]} in
  let second : JsObject := {[ "subject" := JsStr "second" ]} in
  result (@getRecentNotifications h (Some 0)
            (world (@logAll h [first; second] Demo.world0)))
  = Return [ @stamped second 1753869600003; @stamped first 1753869600001 ].
Proof.
  cbv zeta.
  pose proof (proj1 (proj2 (proj2
                (@getRecentNotifications_edges (Demo.host Demo.refusing)
                   (world (@logAll (Demo.host Demo.refusing)
                             [ {[ "subject" := JsStr "first" ]};
                               {[ "subject" := JsStr "second" ]} ]
                             Demo.world0)))))
               (Demo.recentEntries
                  (world (@logAll (Demo.host Demo.refusing)
                            [ {[ "subject" := JsStr "first" ]};
                              {[ "subject" := JsStr "second" ]} ]
                            Demo.world0)))
               [ @stamped {[ "subject" := JsStr "second" ]} 1753869600003;
                 @stamped {[ "subject" := JsStr "first" ]} 1753869600001 ]
               0) as Hget.
  rewrite Hget; [reflexivity | reflexivity | vm_compute; reflexivity | lia].
Defined.

(** An alert of a type that is not one of the three, in the example world
    with its three active managers. *)
Lemma setupAlertProcessor_unknown_type_witness :
  let h := Demo.host Demo.refusing in
  let job :=
    newJob "manager-alert"
      {| alertType := "weekly-digest"; alertData := ∅ |}
      {| delay := 0; attempts := 2; backoff := None;
         removeOnComplete := 5; removeOnFail := 3 |} in
  result (@setupAlertProcessor h job Demo.world0)
  = Return {| success := true; messageId := None |} /\
  emailQueue (world (@setupAlertProcessor h job Demo.world0)) = [].
Proof.
  cbv zeta.
  destruct (@setupAlertProcessor_unknown_type (Demo.host Demo.refusing)
              (newJob "manager-alert"
                 {| alertType := "weekly-digest"; alertData := ∅ |}
                 {| delay := 0; attempts := 2; backoff := None;
                    removeOnComplete := 5; removeOnFail := 3 |})
              Demo.world0)
    as (Hres & Hq & _).
  - intros [E|[E|[E|[]]]]; discriminate.
  - split; [exact Hres | exact Hq].
Defined.

(** ** An email job that is delivered, at once or after retries *)

Section EmailDelivery.
Context `{Host}.

(** One attempt of the processor, whatever the transport answers. *)
Lemma setupEmailProcessor_attempt (job : Job EmailData) (w : World) (l : list string) :
  recentList w = Some l ->
  exists w',
    emailQueue w' = emailQueue w /\ mailsSent w' = S (mailsSent w) /\
    clockReads w' = S (S (clockReads w)) /\
    match sendMail (mailsSent w) (mailOptionsOf (jobData job)) with
    | inl mid =>
        setupEmailProcessor job w
        = (Return {| success := true; messageId := Some mid |}, w') /\
        recentList w'
        = Some (take 100 (JSON_stringify
                            (sentAttempt (jobData job) mid (clockReads w) 0) :: l))
    | inr e =>
        setupEmailProcessor job w = (Throw e, w') /\
        recentList w'
        = Some (take 100 (JSON_stringify
                            (failedAttempt (jobData job) (mailsSent w) (clockReads w) 0)
                          :: l))
    end.
Proof.
  intros Hl.
  unfold setupEmailProcessor, try_catch, mbind, M_bind, transporter_sendMail.
  fold (mailOptionsOf (jobData job)).
  unfold failedAttempt, sendError. rewrite !Nat.add_0_r.
  destruct (sendMail (mailsSent w) (mailOptionsOf (jobData job))) as [mid|e].
  - fold (sentEntry (jobData job) mid).
    match goal with
    | |- context [logNotification ?o ?w1] =>
        destruct (logNotification_run o w1 l Hl) as (Hres & Hrec & Hc & Hq & _ & _ & Hm);
        destruct (logNotification o w1) as [r w2]
    end.
    cbn [result world fst snd] in *. subst r.
    exists w2. unfold mret, M_ret.
    split; [exact Hq|]. split; [exact Hm|]. split; [exact Hc|].
    split; [reflexivity|]. rewrite Hrec. unfold sentAttempt.
    cbn [clockReads set_mailsSent]. rewrite !Nat.add_0_r. reflexivity.
  - fold (failedEntry (jobData job) e).
    match goal with
    | |- context [logNotification ?o ?w1] =>
        destruct (logNotification_run o w1 l Hl) as (Hres & Hrec & Hc & Hq & _ & _ & Hm);
        destruct (logNotification o w1) as [r w2]
    end.
    cbn [result world fst snd] in *. subst r.
    exists w2. unfold throw.
    split; [exact Hq|]. split; [exact Hm|]. split; [exact Hc|].
    split; [reflexivity|]. rewrite Hrec.
    cbn [clockReads set_mailsSent]. reflexivity.
Qed.

(** One pick of a job that waits. *)
Lemma emailWorker_attempt (i : nat) (job : Job EmailData) (w : World) (l : list string) :
  recentList w = Some l -> emailQueue w !! i = Some job -> pickable job ->
  let w' := world (emailWorker i w) in
  mailsSent w' = S (mailsSent w) /\ clockReads w' = S (S (clockReads w)) /\
  match sendMail (mailsSent w) (mailOptionsOf (jobData job)) with
  | inl mid =>
      emailQueue w'
      = <[i := moveToCompleted {| success := true; messageId := Some mid |} job]>
          (emailQueue w) /\
      recentList w'
      = Some (take 100 (JSON_stringify
                          (sentAttempt (jobData job) mid (clockReads w) 0) :: l))
  | inr e =>
      emailQueue w' = <[i := moveToFailed e job]> (emailQueue w) /\
      recentList w'
      = Some (take 100 (JSON_stringify
                          (failedAttempt (jobData job) (mailsSent w) (clockReads w) 0)
                        :: l))
  end.
Proof.
  intros Hl Hjob Hpick. cbv zeta.
  destruct (setupEmailProcessor_attempt job w l Hl) as (w1 & Hq & Hm & Hc & Hrun).
  unfold emailWorker. rewrite Hjob.
  unfold mbind, M_bind, processJob, modify.
  unfold pickable in Hpick.
  destruct (sendMail (mailsSent w) (mailOptionsOf (jobData job))) as [mid|e];
    destruct Hrun as (Hrun & Hrec);
    destruct (jobState job); try contradiction; rewrite Hrun;
    cbn [world snd emailQueue set_emailQueue mailsSent clockReads];
    rewrite Hq; repeat split; assumption.
Qed.

(** The picks of a waiting job whose next [k] attempts fail and whose
    attempt after them is delivered. *)
Lemma picks_deliver (k i : nat) (mid : string) :
  forall (job : Job EmailData) (w : World) (l : list string),
    recentList w = Some l ->
    emailQueue w !! i = Some job -> pickable job ->
    attemptsMade job + Z.of_nat k < attempts (jobOpts job) ->
    (forall j, (j < k)%nat ->
       exists e, sendMail (mailsSent w + j) (mailOptionsOf (jobData job)) = inr e) ->
    sendMail (mailsSent w + k) (mailOptionsOf (jobData job)) = inl mid ->
    let w' := picks (S k) i w in
    emailQueue w' !! i
    = Some (set_job (attemptsMade job + Z.of_nat k)
                    (Completed {| success := true; messageId := Some mid |}) job) /\
    recentList w'
    = Some (take 100
              (JSON_stringify (sentAttempt (jobData job) mid (clockReads w) k)
               :: map JSON_stringify
                      (failedAttempts (jobData job) (mailsSent w) (clockReads w) k)
               ++ l)) /\
    mailsSent w' = (mailsSent w + S k)%nat /\
    (forall j, (j < k)%nat ->
       exists job', emailQueue (picks (S j) i w) !! i = Some job' /\
                    attemptsMade job' = attemptsMade job + Z.of_nat (S j) /\
                    jobState job'
                    = (let d := backoffDelay (backoff (jobOpts job))
                                             (attemptsMade job + Z.of_nat (S j)) in
                       if d =? 0 then Waiting else Delayed d)).
Proof.
  induction k as [|k IH]; intros job w l Hl Hjob Hpick Hleft Hfails Hok.
  - destruct (emailWorker_attempt i job w l Hl Hjob Hpick) as (Hm & Hc & Hrun).
    rewrite Nat.add_0_r in Hok. rewrite Hok in Hrun. destruct Hrun as (Hq & Hrec).
    cbv zeta. cbn [picks].
    assert (Hlt : (i < length (emailQueue w))%nat) by (eapply lookup_lt_Some; eauto).
    split; [|split; [|split]].
    + rewrite Hq, list_lookup_insert_eq by exact Hlt.
      unfold moveToCompleted. do 2 f_equal. lia.
    + rewrite Hrec. reflexivity.
    + rewrite Hm. lia.
    + intros j Hj. lia.
  - destruct (emailWorker_attempt i job w l Hl Hjob Hpick) as (Hm & Hc & Hrun).
    destruct (Hfails 0%nat ltac:(lia)) as (e & He).
    rewrite Nat.add_0_r in He. rewrite He in Hrun. destruct Hrun as (Hq & Hrec).
    cbv zeta.
    assert (Hlt : (i < length (emailQueue w))%nat) by (eapply lookup_lt_Some; eauto).
    set (w1 := world (emailWorker i w)) in *.
    set (d1 := backoffDelay (backoff (jobOpts job)) (attemptsMade job + 1)).
    set (job1 := set_job (attemptsMade job + 1)
                         (if d1 =? 0 then Waiting else Delayed d1) job).
    assert (Hjob1 : emailQueue w1 !! i = Some job1).
    { rewrite Hq, list_lookup_insert_eq by exact Hlt. unfold moveToFailed.
      destruct (Z.ltb_spec (attemptsMade job + 1) (attempts (jobOpts job))); [|lia].
      reflexivity. }
    assert (Hpick1 : pickable job1).
    { unfold pickable, job1. cbn [jobState set_job]. destruct (_ =? 0); exact I. }
    destruct (IH job1 w1 _ Hrec Hjob1 Hpick1) as (Hdone & Hrec' & Hmails & Hmid).
    { cbn [jobOpts attemptsMade set_job job1]. lia. }
    { intros j Hj. cbn [jobData set_job job1]. rewrite Hm.
      replace (S (mailsSent w) + j)%nat with (mailsSent w + S j)%nat by lia.
      apply Hfails. lia. }
    { cbn [jobData set_job job1]. rewrite Hm.
      replace (S (mailsSent w) + k)%nat with (mailsSent w + S k)%nat by lia.
      exact Hok. }
    change (picks (S (S k)) i w) with (picks (S k) i w1).
    cbn [jobData jobOpts attemptsMade set_job job1] in Hdone, Hrec', Hmid.
    split; [|split; [|split]].
    + rewrite Hdone. unfold set_job. cbn [jobName jobData jobOpts].
      do 2 f_equal. lia.
    + rewrite Hrec', Hm, Hc.
      rewrite (failedAttempts_S (jobData job) (mailsSent w) (clockReads w) k).
      change (JSON_stringify ?x :: ?a ++ ?b) with ([JSON_stringify x] ++ a ++ b).
      rewrite (app_assoc [_] _ (take 100 _)), take_app_take.
      unfold sentAttempt.
      replace (S (S (clockReads w)) + 2 * k)%nat with (clockReads w + 2 * S k)%nat
        by lia.
      rewrite map_app, <- !app_assoc. reflexivity.
    + rewrite Hmails, Hm. lia.
    + intros j Hj. destruct j as [|j].
      * exists job1. cbn [picks]. fold w1. split; [exact Hjob1|].
        split; reflexivity.
      * change (picks (S (S j)) i w) with (picks (S j) i w1).
        destruct (Hmid j ltac:(lia)) as (job' & Hj' & Hmade & Hst).
        exists job'. split; [exact Hj'|].
        replace (attemptsMade job + Z.of_nat (S (S j)))
          with (attemptsMade job + 1 + Z.of_nat (S j)) by lia.
        split; assumption.
Qed.

(** X20.  An email whose first [k] attempts fail and whose next attempt is
    delivered, [k] being less than the number of attempts of the job: the
    job is completed with the message id of the provider after [k + 1]
    picks; the log holds one 'failed' entry per failed attempt, each with
    the error of that attempt, and above them the 'sent' entry with the
    message id; between two attempts the job waits (2^j - 1) * 2000 ms
    after its j-th failure; further picks change nothing. *)
Theorem emailJob_delivered_after_retries (k : nat) (emailData : EmailData)
    (options : EmailOptions) (w : World) (l0 : list string) (mid : string) :
  recentList w = Some l0 ->
  Z.of_nat k < num_or (opt_attempts options) 3 ->
  (forall j, (j < k)%nat ->
     exists e, sendMail (mailsSent w + j) (mailOptionsOf emailData) = inr e) ->
  sendMail (mailsSent w + k) (mailOptionsOf emailData) = inl mid ->
  let i := length (emailQueue w) in
  let w1 := world (queueEmail emailData options w) in
  let wk := picks (S k) i w1 in
  (exists job, emailQueue wk !! i = Some job /\ jobData job = emailData /\
               jobState job = Completed {| success := true; messageId := Some mid |} /\
               attemptsMade job = Z.of_nat k) /\
  recentList wk
  = Some (take 100
            (JSON_stringify (sentAttempt emailData mid (clockReads w) k)
             :: map JSON_stringify
                    (failedAttempts emailData (mailsSent w) (clockReads w) k)
             ++ l0)) /\
  mailsSent wk = (mailsSent w + S k)%nat /\
  (forall j, (j < k)%nat ->
     exists job, emailQueue (picks (S j) i w1) !! i = Some job /\
                 jobState job = Delayed ((2 ^ Z.of_nat (S j) - 1) * 2000)) /\
  (forall m, picks m i wk = wk).
Proof.
  intros Hl Hk Hfails Hok. cbv zeta.
  set (A := num_or (opt_attempts options) 3) in *.
  set (job0 := newJob "send-email" emailData
                 {| delay := num_or (opt_delay options) 0; attempts := A;
                    backoff := Some (exponential 2000);
                    removeOnComplete := 10; removeOnFail := 5 |}).
  set (w1 := world (queueEmail emailData options w)).
  assert (Hq1 : emailQueue w1 = emailQueue w ++ [job0]) by reflexivity.
  assert (Hjob0 : emailQueue w1 !! length (emailQueue w) = Some job0).
  { rewrite Hq1. rewrite lookup_app_r by lia. rewrite Nat.sub_diag. reflexivity. }
  assert (Hpick0 : pickable job0).
  { unfold pickable, job0, newJob. cbn [jobState]. destruct (_ <? _); exact I. }
  destruct (picks_deliver k (length (emailQueue w)) mid job0 w1 l0 Hl Hjob0 Hpick0)
    as (Hdone & Hrec & Hmails & Hmid).
  { cbn [jobOpts attemptsMade job0 newJob attempts]. lia. }
  { exact Hfails. }
  { exact Hok. }
  cbv zeta in *.
  change (mailsSent w1) with (mailsSent w) in *.
  change (clockReads w1) with (clockReads w) in *.
  change (jobData job0) with emailData in *.
  split; [|split; [|split; [|split]]].
  - eexists. split; [exact Hdone|]. split; [reflexivity|]. split; [reflexivity|].
    cbn [attemptsMade set_job job0 newJob]. lia.
  - exact Hrec.
  - exact Hmails.
  - intros j Hj. destruct (Hmid j Hj) as (job' & Hj' & _ & Hst).
    exists job'. split; [exact Hj'|]. rewrite Hst.
    cbn [backoff jobOpts job0 newJob backoffDelay attemptsMade].
    replace (0 + Z.of_nat (S j)) with (Z.of_nat (S j)) by lia.
    assert (Hpow : 2 <= 2 ^ Z.of_nat (S j)).
    { change 2 with (2 ^ 1) at 1. apply Z.pow_le_mono_r; lia. }
    set (p := 2 ^ Z.of_nat (S j)) in *.
    destruct (Z.eqb_spec ((p - 1) * 2000) 0); [lia | reflexivity].
  - intros m. eapply picks_terminal; [exact Hdone|].
    unfold pickable. cbn [jobState set_job]. tauto.
Qed.

End EmailDelivery.

(** An email queued with the default three attempts on a transport that
    recovers at its third call. *)
Lemma emailJob_delivered_after_retries_witness :
  let h := Demo.host recovering in
  let d := {| to := "eve@alu.edu"; subject := "Reminder"; text := "Please submit";
              html := None; type := Some "reminder" |} in
  let w1 := world (queueEmail d noOptions Demo.world0) in
  (exists job, emailQueue (@picks h 3 0 w1) !! 0%nat = Some job /\
               jobState job
               = Completed {| success := true;
                              messageId := Some "<2@coursemanagement.com>" |} /\
               attemptsMade job = 2) /\
  (exists job, emailQueue (@picks h 1 0 w1) !! 0%nat = Some job /\
               jobState job = Delayed 2000) /\
  (exists job, emailQueue (@picks h 2 0 w1) !! 0%nat = Some job /\
               jobState job = Delayed 6000).
Proof.
  cbv zeta.
  destruct (@emailJob_delivered_after_retries (Demo.host recovering) 2
              {| to := "eve@alu.edu"; subject := "Reminder"; text := "Please submit";
                 html := None; type := Some "reminder" |}
              noOptions Demo.world0 [] "<2@coursemanagement.com>")
    as ((job & Hjob & _ & Hstate & Hmade) & _ & _ & Hwait & _).
  - reflexivity.
  - reflexivity.
  - intros j Hj. destruct j as [|[|j]]; [eexists; reflexivity .. | lia].
  - reflexivity.
  - split; [exists job; split; [exact Hjob | split; [exact Hstate | exact Hmade]]|].
    split; [exact (Hwait 0%nat ltac:(lia)) | exact (Hwait 1%nat ltac:(lia))].
Defined.

(** ** A manager alert from the queue to the emails *)

Section AlertJobs.
Context `{Host}.

Lemma setupAlertProcessor_alertQueue (job : Job AlertJob) (w : World)
    (subj body : string) :
  alertMessage (alertType (jobData job)) (alertData (jobData job)) = Some (subj, body) ->
  alertQueue (world (setupAlertProcessor job w)) = alertQueue w.
Proof.
  intros Hmsg. unfold setupAlertProcessor, try_catch, mbind, M_bind.
  unfold Manager_findAll, get. rewrite Hmsg.
  rewrite (for_of_append _ _ (alertEmail subj body)) by (intros; reflexivity).
  match goal with
  | |- context [logNotification ?o ?w0] =>
      pose proof (logNotification_frame o w0) as (_ & _ & Ha & _);
      destruct (logNotification o w0) as [r w3]
  end.
  cbn [world snd] in Ha. destruct r; cbn [world snd]; exact Ha.
Qed.

(** X21.  A manager alert of a recognized type, queued by
    [queueManagerAlert] and picked by a worker: the job, created with 2
    attempts at the end of the alert queue (delayed when a delay is
    given), is completed at its first pick; the email queue grows by one
    job per manager with an active user, in the order of the managers;
    and a second pick changes nothing, so no email is queued twice. *)
Theorem alertJob_processed_once (type : string) (data : JsObject) (wait : Z)
    (w : World) (subj body : string) :
  alertMessage type data = Some (subj, body) ->
  let i := length (alertQueue w) in
  let w1 := world (queueManagerAlert type data wait w) in
  let w2 := world (alertWorker i w1) in
  (exists job, alertQueue w1 = alertQueue w ++ [job] /\
               attempts (jobOpts job) = 2 /\ attemptsMade job = 0 /\
               jobState job = (if 0 <? wait then Delayed wait else Waiting)) /\
  (exists job, alertQueue w2 !! i = Some job /\
               jobData job = {| alertType := type; alertData := data |} /\
               jobState job = Completed {| success := true; messageId := None |}) /\
  (exists ms, Manager_findAll w = (Return ms, w) /\
              emailQueue w2 = emailQueue w ++ map (alertEmail subj body) ms) /\
  length (alertQueue w2) = S (length (alertQueue w)) /\
  world (alertWorker i w2) = w2.
Proof.
  intros Hmsg. cbv zeta.
  set (job0 := newJob "manager-alert" {| alertType := type; alertData := data |}
                 {| delay := wait; attempts := 2; backoff := None;
                    removeOnComplete := 5; removeOnFail := 3 |}).
  set (w1 := world (queueManagerAlert type data wait w)).
  assert (Hq1 : alertQueue w1 = alertQueue w ++ [job0]) by reflexivity.
  assert (Hjob0 : alertQueue w1 !! length (alertQueue w) = Some job0).
  { rewrite Hq1. rewrite lookup_app_r by lia. rewrite Nat.sub_diag. reflexivity. }
  destruct (setupAlertProcessor_run job0 w1 subj body Hmsg)
    as (wp & ms & Hms & Hrun & Hemails).
  assert (Halerts : alertQueue wp = alertQueue w1).
  { pose proof (setupAlertProcessor_alertQueue job0 w1 subj body Hmsg) as Ha.
    rewrite Hrun in Ha. exact Ha. }
  assert (Hstep : alertWorker (length (alertQueue w)) w1
                  = (Return tt,
                     set_alertQueue
                       (<[length (alertQueue w) :=
                            moveToCompleted {| success := true; messageId := None |} job0]>
                          (alertQueue wp)) wp)).
  { unfold alertWorker. rewrite Hjob0.
    unfold mbind, M_bind, processJob, modify.
    assert (Hst : jobState job0 = Waiting \/ exists d, jobState job0 = Delayed d).
    { unfold job0, newJob. cbn [jobState delay].
      destruct (0 <? wait); eauto. }
    destruct Hst as [-> | (d & ->)]; rewrite Hrun; reflexivity. }
  rewrite Hstep. cbn [world snd].
  assert (Hlt : (length (alertQueue w) < length (alertQueue wp))%nat).
  { rewrite Halerts, Hq1, length_app. cbn. lia. }
  split; [|split; [|split; [|split]]].
  - exists job0. split; [exact Hq1|]. repeat split; reflexivity.
  - eexists. cbn [alertQueue set_alertQueue].
    split; [apply list_lookup_insert_eq; exact Hlt|]. split; reflexivity.
  - exists ms. split.
    + unfold Manager_findAll, get in Hms |- *. injection Hms as Hms.
      change (db w1) with (db w) in Hms. rewrite Hms. reflexivity.
    + cbn [emailQueue set_alertQueue]. rewrite Hemails. reflexivity.
  - cbn [alertQueue set_alertQueue]. rewrite length_insert, Halerts, Hq1, length_app.
    cbn. lia.
  - unfold alertWorker. cbn [alertQueue set_alertQueue].
    rewrite list_lookup_insert_eq by exact Hlt.
    unfold mbind, M_bind, processJob, modify. cbn [jobState moveToCompleted set_job].
    cbn [world snd alertQueue set_alertQueue].
    rewrite list_insert_insert_eq.
    destruct wp; reflexivity.
Qed.

End AlertJobs.

(** A late-submission alert in the example world, with its three active
    managers. *)
Lemma alertJob_processed_once_witness :
  let h := Demo.host Demo.refusing in
  let data : JsObject := list_to_map [("weekNumber", JsNum 2)] in
  let w1 := world (queueManagerAlert "late-submission" data 0 Demo.world0) in
  let w2 := world (@alertWorker h 0 w1) in
  length (emailQueue w2) = 3%nat /\ world (@alertWorker h 0 w2) = w2.
Proof.
  cbv zeta.
  destruct (@alertJob_processed_once (Demo.host Demo.refusing)
              "late-submission" (list_to_map [("weekNumber", JsNum 2)]) 0 Demo.world0
              "Late Activity Log Submission Alert"
              (generateLateSubmissionAlert (list_to_map [("weekNumber", JsNum 2)]))
              eq_refl)
    as (_ & _ & (ms & Hms & Hq) & _ & Hagain).
  split; [|exact Hagain].
  injection Hms as <-. refine (eq_trans (f_equal length Hq) _). reflexivity.
Defined.
